(** * Nova Support: cart, checkout, tool dispatch and audio playback

    A shallow embedding of the orchestration core of the Nova Support demo
    (the [App] component, the mock catalogue of [data/mockData] and the
    voice channel of [components/LiveSupport.tsx]), with the properties of
    its specification stated and proved over the embedded code.

    Conventions of the embedding.
    - A JavaScript [number] that the code uses as a count, a price or a
      quantity is a [Z]; all arithmetic on them in the modelled code is
      integer arithmetic far below 2^53, where doubles are exact.
    - [Math.random()] is a rational of [[0,1)] read from an oracle held in
      the world; the world counts the calls made so far.
    - A string is a [string] of 8-bit characters; [toLowerCase] folds the
      ASCII letters, which is what it does on the catalogue's names.
    - React state is a hook holding the value of the last render and the
      queue of updates requested since. As under [createRoot] (React 18
      and later) the updates requested by a handler, whatever called it,
      are batched: they are applied, in order, by the render that
      follows the handler, and the effects of a component run after that
      render. A function of a component closes over the state of the
      render that made it.
    - A handler runs to its end, or to its next [await], before anything
      else happens. The only [await] of the tool loop is the one of the
      escalation ticket, long enough for React to render; the audio
      helper [decodeAudioData] builds its buffer at once, so that a
      message is handled before the next one arrives. *)

From Stdlib Require Import ZArith QArith Qround Qminmax Ascii.
From stdpp Require Import base tactics option list strings pretty.

Open Scope Z_scope.

(** ** JavaScript primitives used by the code *)

Module JS.

(** [c.toLowerCase()] on one ASCII character. *)
Definition lower_ascii (c : ascii) : ascii :=
  let n := nat_of_ascii c in
  if (65 <=? n)%nat && (n <=? 90)%nat then ascii_of_nat (n + 32) else c.

(** [s.toLowerCase()] *)
Fixpoint toLowerCase (s : string) : string :=
  match s with
  | EmptyString => EmptyString
  | String c s' => String (lower_ascii c) (toLowerCase s')
  end.

(** [s.startsWith(sub)] *)
Fixpoint startsWith (s sub : string) : bool :=
  match sub, s with
  | EmptyString, _ => true
  | String _ _, EmptyString => false
  | String a sub', String b s' =>
      if decide (a = b) then startsWith s' sub' else false
  end.

(** [s.includes(sub)]: [sub] occurs somewhere in [s]. *)
Fixpoint includes (s sub : string) : bool :=
  startsWith s sub ||
  match s with
  | EmptyString => false
  | String _ s' => includes s' sub
  end.

(** Truthiness of a string and of a number. *)
Definition truthy_string (s : string) : bool :=
  match s with EmptyString => false | _ => true end.

Definition truthy_number (n : Z) : bool := negb (n =? 0).

(** [a || b] on an optional number: [a] when it is present and truthy. *)
Definition or_number (a : option Z) (b : Z) : Z :=
  match a with
  | Some n => if truthy_number n then n else b
  | None => b
  end.

(** [`${n}`] for an integer number. *)
Definition toString (n : Z) : string := pretty n.

(** [Math.floor(x)] *)
Definition Math_floor (x : Q) : Z := Qfloor x.

(** [a > b] on numbers that are not integers. *)
Definition gt (a b : Q) : bool := if Qlt_le_dec b a then true else false.

(** The double quote character, as it appears inside message templates. *)
Definition dquote : string := String (ascii_of_nat 34) EmptyString.

(** [xs.includes(x)] on an array of strings. *)
Definition array_includes (xs : list string) (x : string) : bool :=
  bool_decide (x ∈ xs).

End JS.

(** ** The types of [types.ts] *)

Inductive OrderStatus := Delivered | Processing | Shipped | Returned.

Inductive UserRole := role_customer | role_admin.

Inductive ConnectionStatus := Disconnected | Connecting | Connected | Error.

Record Product := mkProduct {
  p_id : string;
  p_name : string;
  p_category : string;
  p_price : Z;
  p_image : string;
  p_inStock : bool;
  p_rating : Q;
  p_reviewCount : Z
}.

Record CartItem := mkCartItem {
  product : Product;
  quantity : Z
}.

Record OrderItem := mkOrderItem {
  productId : string;
  oi_quantity : Z
}.

Record Order := mkOrder {
  o_id : string;
  o_date : string;
  o_status : OrderStatus;
  o_items : list OrderItem;
  o_total : Z
}.

Record Customer := mkCustomer {
  c_id : string;
  c_name : string;
  c_email : string;
  c_role : UserRole;
  orders : list Order
}.

(** Equality of catalogue entries is decidable. *)
#[global] Instance Q_eq_dec : EqDecision Q.
Proof. solve_decision. Defined.

#[global] Instance Product_eq_dec : EqDecision Product.
Proof. solve_decision. Defined.

(** [{ ...c, orders: os }] *)
Definition with_orders (c : Customer) (os : list Order) : Customer :=
  mkCustomer (c_id c) (c_name c) (c_email c) (c_role c) os.

(** [{ ...item, quantity: q }] *)
Definition with_quantity (item : CartItem) (q : Z) : CartItem :=
  mkCartItem (product item) q.

(** ** The mock catalogue and customers of [data/mockData] *)

Module mockData.

Definition CATEGORIES : list string :=
  ["T-Shirt"; "Jeans"; "Jacket"; "Sneakers"; "Hat"; "Dress"; "Hoodie"].
Definition ADJECTIVES : list string :=
  ["Vintage"; "Modern"; "Classic"; "Urban"; "Cozy"; "Premium"; "Essential"].
Definition COLORS : list string :=
  ["Red"; "Blue"; "Black"; "White"; "Green"; "Navy"; "Grey"].

(** The four draws of [Math.random()] made for one product, in order. *)
Record ProductDraws := mkDraws {
  d_price : Q;
  d_stock : Q;
  d_rating : Q;
  d_reviews : Q
}.

(** [parseFloat(x.toFixed(1))]: the nearest tenth, ties upward. *)
Definition toFixed1 (x : Q) : Q := (Qfloor (x * 10 + (1 # 2)) # 1) / 10.

(** [Array.from({ length: n }, (_, i) => ...)] of [generateProducts].
    [encodeURIComponent] leaves the seven category names as they are. *)
Definition generateProduct (draws : nat → ProductDraws) (i : nat) : Product :=
  let category := default "" (CATEGORIES !! (i mod length CATEGORIES)%nat) in
  let adj := default "" (ADJECTIVES !! (i mod length ADJECTIVES)%nat) in
  let color := default "" (COLORS !! (i mod length COLORS)%nat) in
  {| p_id := "P" +:+ JS.toString (1000 + Z.of_nat i);
     p_name := adj +:+ " " +:+ color +:+ " " +:+ category;
     p_category := category;
     p_price := JS.Math_floor (d_price (draws i) * 150) + 20;
     p_inStock := JS.gt (d_stock (draws i)) (1 # 10);
     p_image := "https://placehold.co/300x300/e2e8f0/1e293b?text=" +:+ category;
     p_rating := toFixed1 (3 + d_rating (draws i) * 2);
     p_reviewCount := JS.Math_floor (d_reviews (draws i) * 500) + 10 |}.

Definition generateProducts (draws : nat → ProductDraws) : list Product :=
  List.map (generateProduct draws) (seq 0 100).

(** [calcTotal]: an item of an unknown product counts for nothing. *)
Definition calcTotal (PRODUCTS : list Product) (items : list OrderItem) : Z :=
  fold_left
    (λ acc item,
       acc + match List.find (λ p, bool_decide (p_id p = productId item)) PRODUCTS with
             | Some p => p_price p * oi_quantity item
             | None => 0
             end)
    items 0.

(** The literal of [CUSTOMERS], after the loop that fills in the totals.
    The items of the five seeded orders come from [getRandomProducts],
    a random shuffle; they are taken as given, in source order. *)
Definition seedOrder (PRODUCTS : list Product) (id date : string)
    (status : OrderStatus) (items : list OrderItem) : Order :=
  mkOrder id date status items (calcTotal PRODUCTS items).

Definition initialCUSTOMERS (PRODUCTS : list Product)
    (picks : nat → list OrderItem) : list Customer :=
  [ mkCustomer "ADMIN" "System Admin" "admin@technova.com" role_admin [];
    mkCustomer "C1" "Alice Johnson" "alice@example.com" role_customer
      [ seedOrder PRODUCTS "ORD-7782" "2023-10-15" Delivered (picks 0%nat);
        seedOrder PRODUCTS "ORD-9921" "2023-11-02" Processing (picks 1%nat) ];
    mkCustomer "C2" "Bob Smith" "bob@example.com" role_customer [];
    mkCustomer "C3" "Charlie Davis" "charlie@example.com" role_customer
      [ seedOrder PRODUCTS "ORD-1102" "2023-09-10" Returned (picks 2%nat);
        seedOrder PRODUCTS "ORD-2231" "2023-10-01" Delivered (picks 3%nat);
        seedOrder PRODUCTS "ORD-3341" "2023-11-05" Shipped (picks 4%nat) ] ].

(** [searchProducts(query?, category?)] *)
Definition searchProducts (PRODUCTS : list Product)
    (query category : option string) : list Product :=
  let results := PRODUCTS in
  let results :=
    match category with
    | Some category =>
        if JS.truthy_string category then
          let lowerCat := JS.toLowerCase category in
          if negb (bool_decide (lowerCat = "apparel"))
             && negb (bool_decide (lowerCat = "clothing"))
             && negb (bool_decide (lowerCat = "apparels"))
          then List.filter
                 (λ p, JS.includes (JS.toLowerCase (p_category p)) lowerCat)
                 results
          else results
        else results
    | None => results
    end in
  let results :=
    match query with
    | Some query =>
        if JS.truthy_string query then
          let lowerQuery := JS.toLowerCase query in
          List.filter
            (λ p, JS.includes (JS.toLowerCase (p_name p)) lowerQuery)
            results
        else results
    | None => results
    end in
  take 5 results.

(** [getCustomerOrders(customerId)] *)
Definition getCustomerOrders (CUSTOMERS : list Customer)
    (customerId : string) : list Order :=
  match List.find (λ c, bool_decide (c_id c = customerId)) CUSTOMERS with
  | Some customer => orders customer
  | None => []
  end.

End mockData.

(** ** React state hooks *)

Module React.

(** The state of one [useState] cell: the value the last render saw and
    the updates requested since, oldest first. *)
Record hook (A : Type) := mkHook {
  current : A;
  pending : list (A → A)
}.
Arguments mkHook {A} _ _.
Arguments current {A} _.
Arguments pending {A} _.

Definition useState {A} (initial : A) : hook A := mkHook initial [].

(** [setX(prev => f(prev))] *)
Definition setState {A} (f : A → A) (h : hook A) : hook A :=
  mkHook (current h) (pending h ++ [f]).

(** [setX(v)] *)
Definition setValue {A} (v : A) (h : hook A) : hook A :=
  setState (λ _, v) h.

(** The value the next render will see. *)
Definition next {A} (h : hook A) : A :=
  fold_left (λ a f, f a) (pending h) (current h).

(** A render: the queue is applied, in order, and emptied. *)
Definition render {A} (h : hook A) : hook A := mkHook (next h) [].

End React.

(** ** The [App] component (cart and checkout) *)

(** What the environment provides: the catalogue built at load time, the
    successive results of [Math.random()] and the current date as
    [new Date().toISOString().split('T')[0]] gives it. *)
Record Env := mkEnv {
  PRODUCTS : list Product;
  Math_random : nat → Q;
  today : string
}.

(** The object [currentUser] points to: an element of [CUSTOMERS] (the
    initial user, or one chosen in the user switcher), or the copy
    [updatedUser] that a checkout has made. *)
Inductive UserRef :=
| InStore (i : nat)
| Detached (c : Customer).

Module App.
Import React.

Record State := mkState {
  CUSTOMERS : list Customer;          (* the module-level array *)
  random_calls : nat;                 (* calls of Math.random() so far *)
  cart : hook (list CartItem);
  currentUser : hook UserRef;
  isCartOpen : hook bool
}.

Definition set_cart (f : hook (list CartItem) → hook (list CartItem))
    (s : State) : State :=
  mkState (CUSTOMERS s) (random_calls s) (f (cart s)) (currentUser s) (isCartOpen s).

Definition set_isCartOpen (f : hook bool → hook bool) (s : State) : State :=
  mkState (CUSTOMERS s) (random_calls s) (cart s) (currentUser s) (f (isCartOpen s)).

Definition no_customer : Customer := mkCustomer "" "" "" role_customer [].

(** The customer object behind a reference. *)
Definition deref (customers : list Customer) (r : UserRef) : Customer :=
  match r with
  | InStore i => default no_customer (customers !! i)
  | Detached c => c
  end.

(** [useState<Customer>(CUSTOMERS[0])], [useState<CartItem[]>([])],
    [useState(false)] *)
Definition initial (customers : list Customer) (calls : nat) : State :=
  mkState customers calls (useState []) (useState (InStore 0)) (useState false).

(** The updater that [addToCart] hands to [setCart]. *)
Definition addToCart_update (prod : Product) (qty : Z)
    (prev : list CartItem) : list CartItem :=
  match List.find (λ item, bool_decide (p_id (product item) = p_id prod)) prev with
  | Some existing =>
      List.map
        (λ item,
           if bool_decide (p_id (product item) = p_id prod)
           then with_quantity item (quantity item + qty)
           else item)
        prev
  | None => prev ++ [mkCartItem prod qty]
  end.

Definition addToCart (prod : Product) (qty : Z) (s : State) : State :=
  set_isCartOpen (setValue true) (set_cart (setState (addToCart_update prod qty)) s).

Definition updateCartItemQuantity_update (productId : string) (newQuantity : Z)
    (prev : list CartItem) : list CartItem :=
  List.map
    (λ item,
       if bool_decide (p_id (product item) = productId)
       then with_quantity item newQuantity
       else item)
    prev.

Definition updateCartItemQuantity (productId : string) (newQuantity : Z)
    (s : State) : State :=
  if newQuantity <? 1 then s
  else set_cart (setState (updateCartItemQuantity_update productId newQuantity)) s.

Definition removeFromCart_update (productId : string)
    (prev : list CartItem) : list CartItem :=
  List.filter (λ item, negb (bool_decide (p_id (product item) = productId))) prev.

Definition removeFromCart (productId : string) (s : State) : State :=
  set_cart (setState (removeFromCart_update productId)) s.

Definition clearCart (s : State) : State := set_cart (setValue []) s.

(** What the function [handleCheckout] of one render has closed over:
    the [cart] and the [currentUser] of that render. *)
Record Closure := mkClosure {
  cl_cart : list CartItem;
  cl_currentUser : UserRef
}.

(** The closure made by the render that produced the state. *)
Definition closure_of (s : State) : Closure :=
  mkClosure (current (cart s)) (current (currentUser s)).

Definition cart_total (c : list CartItem) : Z :=
  fold_left (λ sum item, sum + p_price (product item) * quantity item) c 0.

Definition newOrder_of (env : Env) (cl : Closure) (s : State) : Order :=
  {| o_id := "ORD-" +:+
             JS.toString (JS.Math_floor (Math_random env (random_calls s) * 10000));
     o_date := today env;
     o_status := Processing;
     o_items := List.map (λ item, mkOrderItem (p_id (product item)) (quantity item))
                  (cl_cart cl);
     o_total := cart_total (cl_cart cl) |}.

(** [handleCheckout]: the order id it returns and the state it leaves. *)
Definition handleCheckout (env : Env) (cl : Closure) (s : State) : string * State :=
  let newOrder := newOrder_of env cl s in
  let orderId := o_id newOrder in
  let user := deref (CUSTOMERS s) (cl_currentUser cl) in
  let updatedUser := with_orders user (newOrder :: orders user) in
  let customers :=
    match list_find (λ c, c_id c = c_id user) (CUSTOMERS s) with
    | Some (customerIndex, _) =>
        alter (λ c, with_orders c (newOrder :: orders c)) customerIndex (CUSTOMERS s)
    | None => CUSTOMERS s
    end in
  (orderId,
   mkState customers (S (random_calls s))
     (setValue [] (cart s))
     (setValue (Detached updatedUser) (currentUser s))
     (isCartOpen s)).

(** The user switcher: [CUSTOMERS.find(c => c.id === value)], then
    [setCurrentUser(user)] when there is one. *)
Definition switchUser (value : string) (s : State) : State :=
  match list_find (λ c, c_id c = value) (CUSTOMERS s) with
  | Some (i, _) =>
      mkState (CUSTOMERS s) (random_calls s) (cart s)
        (setValue (InStore i) (currentUser s)) (isCartOpen s)
  | None => s
  end.

(** A render of [App]: every hook takes its queued updates. *)
Definition render (s : State) : State :=
  mkState (CUSTOMERS s) (random_calls s)
    (React.render (cart s)) (React.render (currentUser s))
    (React.render (isCartOpen s)).

(** The order history of the active customer, as [currentUser.orders]
    reads it in the current render. *)
Definition history (s : State) : list Order :=
  orders (deref (CUSTOMERS s) (current (currentUser s))).

(** [checkout()] as the cart drawer and the channels see it: the
    [handleCheckout] of the current render is called and React commits
    the updates it has requested. *)
Definition checkout (env : Env) (s : State) : string * State :=
  let '(orderId, s') := handleCheckout env (closure_of s) s in
  (orderId, render s').

End App.

(** ** The voice channel, [components/LiveSupport.tsx] *)

Module LiveSupport.
Import React.

(** *** Tool calls *)

(** The argument object [fc.args], read at the types the tool
    declarations give its keys; a key that is absent reads as
    [undefined], here [None]. *)
Record Args := mkArgs {
  query : option string;
  category : option string;
  productName : option string;
  a_quantity : option Z;
  reason : option string
}.

Definition no_args : Args := mkArgs None None None None None.

Record FunctionCall := mkCall {
  fc_id : string;
  fc_name : string;
  fc_args : Args
}.

(** The objects assigned to [result], one constructor per shape. *)
Inductive Result :=
| ErrorResult (error : string)
| ProductsResult (products : list Product)
| OrdersResult (orders : list Order)
| MessageResult (success : bool) (message : string)
| OrderResult (success : bool) (orderId : string) (message : string)
| TicketResult (success : bool) (ticketId : string) (message : string).

(** The [success] field of a result, when it has one. *)
Definition success_of (r : Result) : option bool :=
  match r with
  | MessageResult b _ | OrderResult b _ _ | TicketResult b _ _ => Some b
  | ErrorResult _ | ProductsResult _ | OrdersResult _ => None
  end.

Record FunctionResponse := mkResponse {
  fr_id : string;
  fr_name : string;
  fr_result : Result
}.

(** How a piece of code ends: with a value, or by throwing. *)
Inductive Completion (A : Type) :=
| Normal (a : A)
| Throws (error : string).
Arguments Normal {A} _.
Arguments Throws {A} _.

(** *** The component's references *)

Record State := mkState {
  app : App.State;
  cartRef : list CartItem;            (* cartRef.current *)
  placeOrderRef : App.Closure         (* the closure of placeOrderRef.current *)
}.

(** The effect that runs after a render: the references take the props
    of that render. [addToCartRef] needs no field, [addToCart] closes
    over nothing but the state setters. *)
Definition useEffect (l : State) : State :=
  mkState (app l) (current (App.cart (app l))) (App.closure_of (app l)).

(** React commits the queued updates: [App] renders, [LiveSupport]
    renders with the new props and its effect runs. *)
Definition commit (l : State) : State :=
  useEffect (mkState (App.render (app l)) (cartRef l) (placeOrderRef l)).

Definition mount (s : App.State) : State :=
  useEffect (mkState s [] (App.closure_of s)).

Definition set_app (a : App.State) (l : State) : State :=
  mkState a (cartRef l) (placeOrderRef l).

(** [PRODUCTS.find(p => p.name.toLowerCase().includes(productName.toLowerCase()))]:
    the callback throws on the first product when [productName] is
    [undefined]. *)
Definition find_product (products : list Product)
    (productName : option string) : Completion (option Product) :=
  match productName with
  | Some name =>
      Normal (List.find
                (λ p, JS.includes (JS.toLowerCase (p_name p)) (JS.toLowerCase name))
                products)
  | None =>
      match products with
      | [] => Normal None
      | _ :: _ =>
          Throws "TypeError: Cannot read properties of undefined (reading 'toLowerCase')"
      end
  end.

(** [`${productName}`] *)
Definition show_name (productName : option string) : string :=
  default "undefined" productName.

Definition recommendation_for (cat : string) : string :=
  if JS.array_includes ["T-Shirt"; "Jacket"; "Hoodie"] cat then "Suggest Jeans."
  else if bool_decide (cat = "Jeans") then "Suggest a T-Shirt."
  else "".

(** [createEscalationTicket(userId, reason)], after its delay. *)
Definition createEscalationTicket (env : Env) (userId : string)
    (reason : option string) (s : App.State) : string * App.State :=
  ("TKT-" +:+
     JS.toString
       (JS.Math_floor (Math_random env (App.random_calls s) * 90000) + 10000),
   App.mkState (App.CUSTOMERS s) (S (App.random_calls s)) (App.cart s)
     (App.currentUser s) (App.isCartOpen s)).

(** One turn of the loop [for (const fc of message.toolCall.functionCalls)]:
    the [result] for the call and the state after it. [sessionUser] is
    the [currentUser] that [onmessage] closed over when the session was
    started. *)
Definition dispatch (env : Env) (sessionUser : UserRef) (fc : FunctionCall)
    (l : State) : Completion (Result * State) :=
  let args := fc_args fc in
  if bool_decide (fc_name fc = "search_products") then
    Normal (ProductsResult
              (mockData.searchProducts (PRODUCTS env) (query args) (category args)),
            l)
  else if bool_decide (fc_name fc = "get_my_orders") then
    Normal (OrdersResult
              (mockData.getCustomerOrders (App.CUSTOMERS (app l))
                 (c_id (App.deref (App.CUSTOMERS (app l)) sessionUser))),
            l)
  else if bool_decide (fc_name fc = "add_to_cart") then
    match find_product (PRODUCTS env) (productName args) with
    | Throws e => Throws e
    | Normal (Some foundProduct) =>
        let qty := JS.or_number (a_quantity args) 1 in
        let l' := set_app (App.addToCart foundProduct qty (app l)) l in
        let cat := p_category foundProduct in
        let recommendation := recommendation_for cat in
        Normal (MessageResult true
                  ("Added " +:+ JS.toString qty +:+ " x " +:+ p_name foundProduct
                   +:+ " to cart. Total: $"
                   +:+ JS.toString (p_price foundProduct * qty)
                   +:+ ". [SYSTEM HINT: The user bought " +:+ cat +:+ ". "
                   +:+ recommendation +:+ "]"),
                l')
    | Normal None =>
        Normal (MessageResult false
                  ("Product " +:+ JS.dquote +:+ show_name (productName args)
                   +:+ JS.dquote +:+ " not found."),
                l)
    end
  else if bool_decide (fc_name fc = "place_order") then
    if bool_decide (length (cartRef l) = 0%nat) then
      Normal (MessageResult false "Cart is empty. Cannot place order.", l)
    else
      let '(orderId, a) := App.handleCheckout env (placeOrderRef l) (app l) in
      Normal (OrderResult true orderId
                ("Order placed successfully. Order ID: " +:+ orderId
                 +:+ ". You MUST tell the user this ID."),
              set_app a l)
  else if bool_decide (fc_name fc = "escalate_issue") then
    (* [await]: the handler is suspended for the delay of the ticket
       call and React commits what is queued before it resumes. *)
    let l1 := commit l in
    let '(ticketId, a) :=
      createEscalationTicket env
        (c_id (App.deref (App.CUSTOMERS (app l1)) sessionUser))
        (reason args) (app l1) in
    Normal (TicketResult true ticketId
              ("Escalation successful. Ticket ID: " +:+ ticketId
               +:+ ". Inform the user."),
            set_app a l1)
  else Normal (ErrorResult "Unknown tool", l).

(** An [add_to_cart] call says which product it is about. *)
Definition carries_productName (fc : FunctionCall) : Prop :=
  fc_name fc = "add_to_cart" → is_Some (productName (fc_args fc)).

(** The whole loop. A throw leaves the handler at once: the state keeps
    what the earlier calls of the batch did and no response is built. *)
Fixpoint dispatch_all (env : Env) (sessionUser : UserRef)
    (calls : list FunctionCall) (functionResponses : list FunctionResponse)
    (l : State) : Completion (list FunctionResponse) * State :=
  match calls with
  | [] => (Normal functionResponses, l)
  | fc :: rest =>
      match dispatch env sessionUser fc l with
      | Throws e => (Throws e, l)
      | Normal (result, l') =>
          dispatch_all env sessionUser rest
            (functionResponses ++ [mkResponse (fc_id fc) (fc_name fc) result]) l'
      end
  end.

(** The tool-call part of [onmessage]. *)
Definition onmessage_toolCall (env : Env) (sessionUser : UserRef)
    (calls : list FunctionCall) (l : State)
    : Completion (list FunctionResponse) * State :=
  dispatch_all env sessionUser calls [] l.

(** What goes to [session.sendToolResponse]: the batch, when the loop
    ended normally, a session is active and the batch is not empty. *)
Definition sendToolResponse (activeSession : bool)
    (c : Completion (list FunctionResponse)) : option (list FunctionResponse) :=
  match c with
  | Normal (r :: rs) => if activeSession then Some (r :: rs) else None
  | Normal [] => None
  | Throws _ => None
  end.

(** A later turn: the message is handled after React has committed the
    updates of the handlers before it. *)
Definition later_turn (env : Env) (sessionUser : UserRef)
    (calls : list FunctionCall) (l : State)
    : Completion (list FunctionResponse) * State :=
  onmessage_toolCall env sessionUser calls (commit l).

(** *** Audio output *)

(** Times are in seconds. A source node is named by the order of its
    creation. *)
Record Playback := mkPlayback {
  nextStartTime : Q;                  (* nextStartTimeRef.current *)
  sources : list nat;                 (* sourcesRef.current *)
  created : nat;                      (* buffer sources created so far *)
  started : list (nat * Q * Q);       (* source.start(when), with its duration *)
  stopped : list nat                  (* calls of s.stop() *)
}.

(** The serverContent of a message: the base64 data of the first part
    of the model turn and the [interrupted] flag. *)
Record ServerContent := mkContent {
  inlineData : option string;
  interrupted : bool
}.

(** The audio branch. [currentTime] is [ctx.currentTime] and [decoded]
    the duration of the buffer that [decodeAudioData] returns, or
    [None] when it throws, which the handler catches. *)
Definition schedule (currentTime : Q) (decoded : option Q) (pb : Playback)
    : Playback :=
  let start := Qmax (nextStartTime pb) currentTime in
  match decoded with
  | Some duration =>
      mkPlayback (start + duration)%Q (sources pb ++ [created pb])
        (S (created pb)) (started pb ++ [(created pb, start, duration)])
        (stopped pb)
  | None =>
      mkPlayback start (sources pb) (created pb) (started pb) (stopped pb)
  end.

(** The interruption branch. *)
Definition interrupt (pb : Playback) : Playback :=
  mkPlayback 0%Q [] (created pb) (started pb) (stopped pb ++ sources pb).

(** The listener of [ended] on a source. *)
Definition ended (source : nat) (pb : Playback) : Playback :=
  mkPlayback (nextStartTime pb)
    (List.filter (λ s, negb (bool_decide (s = source))) (sources pb))
    (created pb) (started pb) (stopped pb).

(** The serverContent part of [onmessage]. [audioContext] is the
    current time of [audioContextRef.current], [None] when the
    reference is null; [decodeAudioData] gives the duration of the
    decoded buffer. *)
Definition onmessage_serverContent (audioContext : option Q)
    (decodeAudioData : string → option Q) (m : ServerContent)
    (pb : Playback) : Playback :=
  let pb1 :=
    match inlineData m, audioContext with
    | Some base64Audio, Some currentTime =>
        if JS.truthy_string base64Audio
        then schedule currentTime (decodeAudioData base64Audio) pb
        else pb
    | _, _ => pb
    end in
  if interrupted m then interrupt pb1 else pb1.

End LiveSupport.

(** ** The search contract, in the words of the specification *)

Module SearchSpec.

(** The text query, if present, is a case-insensitive substring match
    against the product name. *)
Definition name_matches (query : option string) (p : Product) : bool :=
  match query with
  | Some q => JS.includes (JS.toLowerCase (p_name p)) (JS.toLowerCase q)
  | None => true
  end.

(** A generic, umbrella term for the whole catalogue. *)
Definition generic (category : string) : bool :=
  bool_decide (JS.toLowerCase category ∈ ["apparel"; "clothing"; "apparels"]).

(** A generic category is ignored; any other is a case-insensitive
    substring match against the product category. *)
Definition category_matches (category : option string) (p : Product) : bool :=
  match category with
  | Some c =>
      generic c || JS.includes (JS.toLowerCase (p_category p)) (JS.toLowerCase c)
  | None => true
  end.

Definition matches (query category : option string) (p : Product) : bool :=
  category_matches category p && name_matches query p.

(** The first five matches, in catalogue order. *)
Definition search (products : list Product)
    (query category : option string) : list Product :=
  take 5 (List.filter (matches query category) products).

End SearchSpec.

(** ** Runs of cart operations *)

Module Run.

(** What can happen to the cart between two observations: a call of
    one of the cart operations of [App], or a render. *)
Inductive Event :=
| Add (prod : Product) (qty : Z)
| Update (productId : string) (newQuantity : Z)
| Remove (productId : string)
| Clear
| Checkout
| Render.

Definition step (env : Env) (e : Event) (s : App.State) : App.State :=
  match e with
  | Add prod qty => App.addToCart prod qty s
  | Update productId newQuantity => App.updateCartItemQuantity productId newQuantity s
  | Remove productId => App.removeFromCart productId s
  | Clear => App.clearCart s
  | Checkout => (App.handleCheckout env (App.closure_of s) s).2
  | Render => App.render s
  end.

Definition run (env : Env) (events : list Event) (s : App.State) : App.State :=
  fold_left (λ s e, step env e s) events s.

(** The quantities that a run adds for one product id. *)
Definition added (id : string) (events : list Event) : list Z :=
  omap (λ e, match e with
             | Add prod qty => if bool_decide (p_id prod = id) then Some qty else None
             | _ => None
             end) events.

Definition only_adds_of (id : string) (e : Event) : Prop :=
  match e with
  | Add prod _ => p_id prod = id
  | Render => True
  | _ => False
  end.

Definition sum (qs : list Z) : Z := fold_right Z.add 0 qs.

Definition ids (c : list CartItem) : list string :=
  List.map (λ item, p_id (product item)) c.

(** The invariant of the specification: every quantity is at least 1. *)
Definition quantities_positive (c : list CartItem) : Prop :=
  Forall (λ item, 1 ≤ quantity item) c.

(** A run whose additions are all of at least one unit. *)
Definition adds_positive (e : Event) : Prop :=
  match e with Add _ qty => 1 ≤ qty | _ => True end.

End Run.

(** ** Sample data: a catalogue, customers and states the program can be in *)

Module Sample.
Import mockData.

(** Draws for which the T-shirt [P1000] costs 20 and the jeans [P1001]
    cost 50. *)
Definition draws (i : nat) : ProductDraws :=
  mkDraws (Z.of_nat (i mod 5) # 5) (1 # 2) (1 # 2) (1 # 2).

(** The next [Math.random()] gives 0.77825. *)
Definition env : Env :=
  mkEnv (generateProducts draws) (λ _, 77825 # 100000) "2024-01-15".

Definition picks (k : nat) : list OrderItem :=
  match k with
  | 0%nat => [mkOrderItem "P1003" 1; mkOrderItem "P1010" 2]
  | 1%nat => [mkOrderItem "P1042" 1]
  | 2%nat => [mkOrderItem "P1007" 2; mkOrderItem "P1001" 1; mkOrderItem "P1099" 1]
  | 3%nat => [mkOrderItem "P1015" 1]
  | _ => [mkOrderItem "P1000" 2; mkOrderItem "P1064" 1]
  end.

Definition customers : list Customer := initialCUSTOMERS (PRODUCTS env) picks.

Definition tshirt : Product := generateProduct draws 0.
Definition jeans : Product := generateProduct draws 1.

(** The application as it starts: the admin is active, the cart empty. *)
Definition app0 : App.State := App.initial customers 400.

(** Alice is active and has two T-shirts and one pair of jeans in her
    cart. *)
Definition alice_shopping : App.State :=
  Run.run env
    [Run.Add tshirt 2; Run.Add jeans 1; Run.Render]
    (App.render (App.switchUser "C1" app0)).

(** The voice session, started at launch. *)
Definition live0 : LiveSupport.State := LiveSupport.mount app0.

Definition call (name : string) (args : LiveSupport.Args) : LiveSupport.FunctionCall :=
  LiveSupport.mkCall "call-1" name args.

Definition add_to_cart (name : option string) (qty : option Z) : LiveSupport.FunctionCall :=
  call "add_to_cart" (LiveSupport.mkArgs None None name qty None).

Definition place_order : LiveSupport.FunctionCall :=
  call "place_order" LiveSupport.no_args.

Definition get_my_orders : LiveSupport.FunctionCall :=
  call "get_my_orders" LiveSupport.no_args.

Definition escalate_issue (reason : option string) : LiveSupport.FunctionCall :=
  call "escalate_issue" (LiveSupport.mkArgs None None None None reason).

(** The voice session of Alice while she shops. *)
Definition alice_live : LiveSupport.State := LiveSupport.mount alice_shopping.

(** A batch that leaves out a reason, names a product that does not
    exist and calls a tool that does not exist. *)
Definition mixed_batch : list LiveSupport.FunctionCall :=
  [escalate_issue None;
   add_to_cart (Some "nonexistent-xyz") None;
   call "refund_order" LiveSupport.no_args;
   call "search_products" LiveSupport.no_args].

(** A playback with two fragments scheduled, of 0.5 s and 0.25 s, the
    first started at 1 s. *)
Definition two_scheduled : LiveSupport.Playback :=
  LiveSupport.schedule 1 (Some (1 # 4))
    (LiveSupport.schedule 1 (Some (1 # 2))
       (LiveSupport.mkPlayback 0 [] 0 [] [])).

End Sample.

(** ** More of [App]: the badge of the cart icon *)

Module AppShell.

(** [cartTotalItems]: [cart.reduce((acc, item) => acc + item.quantity, 0)] *)
Definition cartTotalItems (c : list CartItem) : Z :=
  fold_left (λ acc item, acc + quantity item) c 0.

(** The cart icon of the header: [setIsCartOpen(true)]. *)
Definition openCart (s : App.State) : App.State :=
  App.set_isCartOpen (React.setValue true) s.

End AppShell.

(** ** The cart drawer, [components/CartDrawer.tsx] *)

Module CartDrawer.
Import React.

Inductive Step := StepCart | StepReview | StepSuccess.

(** The drawer is always mounted; its props are the state of [App]. *)
Record State := mkState {
  app : App.State;
  checkoutStep : hook Step;
  lastOrderId : hook string
}.

Definition mount (a : App.State) : State :=
  mkState a (useState StepCart) (useState "").

(** [total] *)
Definition total (c : list CartItem) : Z :=
  fold_left (λ sum item, sum + p_price (product item) * quantity item) c 0.

Definition setCheckoutStep (step : Step) (d : State) : State :=
  mkState (app d) (setValue step (checkoutStep d)) (lastOrderId d).

Definition set_app (f : App.State → App.State) (d : State) : State :=
  mkState (f (app d)) (checkoutStep d) (lastOrderId d).

(** [onClose]: [() => setIsCartOpen(false)] *)
Definition onClose (d : State) : State :=
  set_app (App.set_isCartOpen (setValue false)) d.

Definition handleCheckoutClick (d : State) : State := setCheckoutStep StepReview d.

(** [handleConfirmOrder]: [onCheckout] is the [handleCheckout] of the
    render that drew the button. *)
Definition handleConfirmOrder (env : Env) (d : State) : State :=
  let '(orderId, a) := App.handleCheckout env (App.closure_of (app d)) (app d) in
  mkState a (setValue StepSuccess (checkoutStep d)) (setValue orderId (lastOrderId d)).

Definition handleFinalize (d : State) : State := onClose (setCheckoutStep StepCart d).

Definition closeDrawer (d : State) : State := onClose (setCheckoutStep StepCart d).

(** The quantity stepper of one line of the cart. The minus button is
    [disabled] when the quantity is 1 or less: a click on it does
    nothing. *)
Definition increment (item : CartItem) (d : State) : State :=
  set_app (App.updateCartItemQuantity (p_id (product item)) (quantity item + 1)) d.

Definition decrement (item : CartItem) (d : State) : State :=
  if quantity item <=? 1 then d
  else set_app (App.updateCartItemQuantity (p_id (product item)) (quantity item - 1)) d.

(** The buttons of the drawer. A line of the cart is named by its
    position. *)
Inductive Click :=
| ClickClose                 (* the cross and the backdrop *)
| ClickClear                 (* Clear Cart *)
| ClickRemove (i : nat)
| ClickPlus (i : nat)
| ClickMinus (i : nat)
| ClickCheckout
| ClickBack
| ClickBuyNow
| ClickContinue.

(** A click reaches its handler when the render on screen shows the
    button: nothing is drawn when the drawer is closed, the lines and
    the checkout button belong to the cart step with a cart that is not
    empty, Back and Buy Now to the review step, Continue Shopping to the
    success step. *)
Definition click (env : Env) (c : Click) (d : State) : State :=
  let shown := current (App.cart (app d)) in
  if negb (current (App.isCartOpen (app d))) then d
  else
    match c, current (checkoutStep d) with
    | ClickClose, _ => closeDrawer d
    | ClickClear, StepCart =>
        match shown with [] => d | _ :: _ => set_app App.clearCart d end
    | ClickRemove i, StepCart =>
        match shown !! i with
        | Some item => set_app (App.removeFromCart (p_id (product item))) d
        | None => d
        end
    | ClickPlus i, StepCart =>
        match shown !! i with Some item => increment item d | None => d end
    | ClickMinus i, StepCart =>
        match shown !! i with Some item => decrement item d | None => d end
    | ClickCheckout, StepCart =>
        match shown with [] => d | _ :: _ => handleCheckoutClick d end
    | ClickBack, StepReview => setCheckoutStep StepCart d
    | ClickBuyNow, StepReview => handleConfirmOrder env d
    | ClickContinue, StepSuccess => handleFinalize d
    | _, _ => d
    end.

Definition render (d : State) : State :=
  mkState (App.render (app d)) (React.render (checkoutStep d))
    (React.render (lastOrderId d)).

(** What the user does with the drawer: he opens it with the cart icon
    or clicks one of its buttons; React renders after every click. *)
Inductive Action :=
| Open
| Press (c : Click).

Definition act (env : Env) (a : Action) (d : State) : State :=
  render
    match a with
    | Open => set_app AppShell.openCart d
    | Press c => click env c d
    end.

Definition session (env : Env) (actions : list Action) (d : State) : State :=
  fold_left (λ d a, act env a d) actions d.

(** Every order on record has at least one item. *)
Definition no_empty_order (a : App.State) : Prop :=
  Forall (λ c, Forall (λ o, o_items o ≠ []) (orders c)) (App.CUSTOMERS a)
  ∧ Forall (λ o, o_items o ≠ []) (App.history a).

(** Nothing is queued in the hooks that the drawer reads or writes. *)
Definition settled (d : State) : Prop :=
  pending (App.cart (app d)) = []
  ∧ pending (App.currentUser (app d)) = []
  ∧ pending (checkoutStep d) = [].

End CartDrawer.

(** ** The product browser, [components/ProductBrowser.tsx] *)

Module ProductBrowser.

(** [filteredProducts] *)
Definition filteredProducts (products : list Product)
    (searchTerm selectedCategory : string) : list Product :=
  List.filter
    (λ p,
       let matchesSearch :=
         JS.includes (JS.toLowerCase (p_name p)) (JS.toLowerCase searchTerm) in
       let matchesCategory :=
         bool_decide (selectedCategory = "All")
         || bool_decide (p_category p = selectedCategory) in
       matchesSearch && matchesCategory)
    products.

End ProductBrowser.

(** ** The life of the voice session, [components/LiveSupport.tsx] *)

Module Session.
Import React.

#[global] Instance ConnectionStatus_eq_dec : EqDecision ConnectionStatus.
Proof. solve_decision. Defined.

(** [AudioContext.state] *)
Inductive ContextState := suspended | running | closed.

(** An audio context: which one it is, and its state. *)
Record AudioContext := mkContext {
  ctx_id : nat;
  ctx_state : ContextState
}.

(** What [stopSession] asks of the browser and of the session. *)
Inductive Effect :=
| ContextClose (ctx : nat)          (* ctx.close() *)
| TrackStop (track : nat)           (* track.stop() *)
| NodeDisconnect (node : nat)       (* node.disconnect() *)
| SessionClose (promise : nat).     (* promise.then(session => session.close()) *)

Record State := mkState {
  isSessionReady : bool;                      (* isSessionReadyRef.current *)
  inputContext : option AudioContext;         (* inputContextRef.current *)
  audioContext : option AudioContext;         (* audioContextRef.current *)
  stream : option (list nat);                 (* streamRef.current, its tracks *)
  processor : option nat;                     (* processorRef.current *)
  sourceNode : option nat;                    (* sourceNodeRef.current *)
  activeSessionPromise : option nat;          (* activeSessionPromiseRef.current *)
  status : hook ConnectionStatus;
  volume : hook Q;
  effects : list Effect
}.

(** The closing of one context: [if (ref.current && ref.current.state
    !== 'closed') ref.current.close()] *)
Definition close_context (c : option AudioContext) : list Effect :=
  match c with
  | Some ctx =>
      match ctx_state ctx with
      | closed => []
      | _ => [ContextClose (ctx_id ctx)]
      end
  | None => []
  end.

Definition stop_tracks (s : option (list nat)) : list Effect :=
  match s with Some tracks => List.map TrackStop tracks | None => [] end.

Definition disconnect (n : option nat) : list Effect :=
  match n with Some node => [NodeDisconnect node] | None => [] end.

Definition close_session (p : option nat) : list Effect :=
  match p with Some promise => [SessionClose promise] | None => [] end.

(** [stopSession] *)
Definition stopSession (s : State) : State :=
  mkState false None None None None None None
    (setValue Disconnected (status s))
    (setValue 0%Q (volume s))
    (effects s
     ++ close_context (inputContext s)
     ++ close_context (audioContext s)
     ++ stop_tracks (stream s)
     ++ disconnect (processor s)
     ++ disconnect (sourceNode s)
     ++ close_session (activeSessionPromise s)).

(** The callback [onclose]. *)
Definition onclose (s : State) : State :=
  mkState false (inputContext s) (audioContext s) (stream s) (processor s)
    (sourceNode s) (activeSessionPromise s)
    (setValue Disconnected (status s)) (setValue 0%Q (volume s)) (effects s).

(** The callback [onerror]. *)
Definition onerror (s : State) : State :=
  stopSession
    (mkState false (inputContext s) (audioContext s) (stream s) (processor s)
       (sourceNode s) (activeSessionPromise s)
       (setValue Error (status s)) (setValue 0%Q (volume s)) (effects s)).

Definition render (s : State) : State :=
  mkState (isSessionReady s) (inputContext s) (audioContext s) (stream s)
    (processor s) (sourceNode s) (activeSessionPromise s)
    (React.render (status s)) (React.render (volume s)) (effects s).

(** How [startSession] begins, before it acquires anything. *)
Inductive Start :=
| Ignored                    (* return: a session is there, or coming *)
| MissingKey (s : State)     (* setStatus(Error); return *)
| Proceeds.                  (* the try block is entered *)

Definition startSession_entry (apiKey : string) (s : State) : Start :=
  if bool_decide (is_Some (activeSessionPromise s))
     || bool_decide (current (status s) = Connecting)
  then Ignored
  else if negb (JS.truthy_string apiKey) then
    MissingKey
      (mkState (isSessionReady s) (inputContext s) (audioContext s) (stream s)
         (processor s) (sourceNode s) (activeSessionPromise s)
         (setValue Error (status s)) (volume s) (effects s))
  else Proceeds.

(** Every reference is [null] and the session is not ready. *)
Definition released (s : State) : Prop :=
  isSessionReady s = false ∧ inputContext s = None ∧ audioContext s = None
  ∧ stream s = None ∧ processor s = None ∧ sourceNode s = None
  ∧ activeSessionPromise s = None.

(** What a connected session holds: two running contexts, the
    microphone, the two nodes of the capture path and the session. *)
Definition connected_session : State :=
  mkState true (Some (mkContext 1 running)) (Some (mkContext 2 running))
    (Some [7%nat]) (Some 3%nat) (Some 4%nat) (Some 9%nat)
    (useState Connected) (useState (1 # 5)) [].

End Session.

(** ** Runs of audio fragments *)

Module Audio.
Import LiveSupport.

(** A fragment arrives when the clock shows [now]; it decodes to a
    buffer of some duration, or not at all. *)
Definition arrive (pb : Playback) (a : Q * option Q) : Playback :=
  schedule a.1 a.2 pb.

Definition play (arrivals : list (Q * option Q)) (pb : Playback) : Playback :=
  fold_left arrive arrivals pb.

Definition fragment_start (f : nat * Q * Q) : Q := f.1.2.
Definition fragment_end (f : nat * Q * Q) : Q := (f.1.2 + f.2)%Q.

(** No fragment starts before an earlier one has ended. *)
Definition sequential (fs : list (nat * Q * Q)) : Prop :=
  ∀ i j f g, (i < j)%nat → fs !! i = Some f → fs !! j = Some g →
    (fragment_end f <= fragment_start g)%Q.

(** Every fragment started so far ends by the cursor. *)
Definition within_cursor (pb : Playback) : Prop :=
  Forall (λ f, (fragment_end f <= nextStartTime pb)%Q) (started pb).

Definition nonnegative (a : Q * option Q) : Prop :=
  match a.2 with Some d => (0 <= d)%Q | None => True end.

End Audio.

(** ** Batches of tool calls *)

Module Batch.
Import LiveSupport.

(** A call that looks something up, or that names no tool. *)
Definition read_only (fc : FunctionCall) : Prop :=
  fc_name fc ∉ ["add_to_cart"; "place_order"; "escalate_issue"].

End Batch.

(** ** Predicates of the statements *)

(** The draws of [Math.random()] for one product are in [[0,1)]. *)
Definition draws_in_range (d : mockData.ProductDraws) : Prop :=
  (0 <= mockData.d_price d)%Q ∧ (mockData.d_price d < 1)%Q
  ∧ (0 <= mockData.d_rating d)%Q ∧ (mockData.d_rating d < 1)%Q
  ∧ (0 <= mockData.d_reviews d)%Q ∧ (mockData.d_reviews d < 1)%Q.

(** An order item whose product is not in the catalogue. *)
Definition unknown_to (products : list Product) (item : OrderItem) : Prop :=
  productId item ∉ List.map p_id products.

(** What one item adds to [calcTotal]. *)
Definition line_total (products : list Product) (item : OrderItem) : Z :=
  match List.find (λ p, bool_decide (p_id p = productId item)) products with
  | Some p => p_price p * oi_quantity item
  | None => 0
  end.

(** The drawer between two clicks: nothing is queued, a review is the
    review of a cart that is not empty, and no order on record is empty. *)
Definition sound (d : CartDrawer.State) : Prop :=
  CartDrawer.settled d
  ∧ (React.current (CartDrawer.checkoutStep d) = CartDrawer.StepReview →
     React.current (App.cart (CartDrawer.app d)) ≠ [])
  ∧ CartDrawer.no_empty_order (CartDrawer.app d).

(** What a click can do to what [sound] reads: nothing; or change the
    cart while the step is the cart step; or move between steps without
    touching cart and orders; or open or close the drawer; or confirm
    the order under review. *)
Inductive outcome (env : Env) (d : CartDrawer.State) : CartDrawer.State → Prop :=
| Unchanged : outcome env d d
| CartEdited f :
    React.current (CartDrawer.checkoutStep d) = CartDrawer.StepCart →
    outcome env d (CartDrawer.set_app (App.set_cart f) d)
| Moved step f :
    (step = CartDrawer.StepReview →
     React.current (App.cart (CartDrawer.app d)) ≠ []) →
    outcome env d
      (CartDrawer.set_app (App.set_isCartOpen f) (CartDrawer.setCheckoutStep step d))
| Opened f : outcome env d (CartDrawer.set_app (App.set_isCartOpen f) d)
| Confirmed :
    React.current (CartDrawer.checkoutStep d) = CartDrawer.StepReview →
    outcome env d (CartDrawer.handleConfirmOrder env d).

(** * Proofs *)

Section Strings.
Import JS.

Lemma append_String c s t : String c s +:+ t = String c (s +:+ t).
Proof. reflexivity. Qed.

Lemma append_empty t : "" +:+ t = t.
Proof. reflexivity. Qed.

Lemma startsWith_spec s sub :
  startsWith s sub = true ↔ ∃ post, s = sub +:+ post.
Proof.
  revert s. induction sub as [|a sub IH]; intros s.
  - split; [intros _; by exists s|intros _; by destruct s].
  - destruct s as [|b s]; simpl.
    + split; [done|]. intros [post H]. discriminate H.
    + destruct (decide (a = b)) as [->|Hne].
      * rewrite IH. split; intros [post H]; exists post;
          rewrite append_String in *; congruence.
      * split; [done|]. intros [post H]. rewrite append_String in H. congruence.
Qed.

Lemma includes_nil sub : includes "" sub = startsWith "" sub || false.
Proof. reflexivity. Qed.

Lemma includes_cons c s sub :
  includes (String c s) sub = startsWith (String c s) sub || includes s sub.
Proof. reflexivity. Qed.

Lemma includes_spec s sub :
  includes s sub = true ↔ ∃ pre post, s = pre +:+ sub +:+ post.
Proof.
  induction s as [|c s IH]; [rewrite includes_nil|rewrite includes_cons].
  - rewrite orb_false_r, startsWith_spec. split.
    + intros [post H]. by exists "", post.
    + intros (pre & post & H). destruct pre; [by exists post|discriminate H].
  - rewrite orb_true_iff, IH, startsWith_spec. split.
    + intros [[post H]|(pre & post & H)].
      * by exists "", post.
      * exists (String c pre), post. rewrite append_String. by rewrite H.
    + intros (pre & post & H). destruct pre as [|c' pre].
      * left. by exists post.
      * right. exists pre, post. rewrite append_String in H. congruence.
Qed.

Lemma includes_empty s : includes s "" = true.
Proof. destruct s; reflexivity. Qed.

End Strings.

Section Filters.
Context {A : Type}.

Lemma filter_all (f : A → bool) (l : list A) :
  (∀ x, f x = true) → List.filter f l = l.
Proof.
  intros Hf. induction l as [|x l IH]; simpl; [done|].
  by rewrite Hf, IH.
Qed.

Lemma filter_twice (f g : A → bool) (l : list A) :
  List.filter g (List.filter f l) = List.filter (λ x, f x && g x) l.
Proof.
  induction l as [|x l IH]; simpl; [done|].
  destruct (f x); simpl; [|done]. destruct (g x); by rewrite IH.
Qed.

Lemma filter_none (f : A → bool) (l : list A) :
  (∀ x, x ∈ l → f x = false) → List.filter f l = [].
Proof.
  induction l as [|x l IH]; simpl; intros Hf; [done|].
  rewrite (Hf x) by left. apply IH. intros y Hy. apply Hf. by right.
Qed.

Lemma filter_sublist (f : A → bool) (l : list A) : List.filter f l `sublist_of` l.
Proof.
  induction l as [|x l IH]; simpl; [done|].
  destruct (f x); by constructor.
Qed.

Lemma filter_extensional (f g : A → bool) (l : list A) :
  (∀ x, f x = g x) → List.filter f l = List.filter g l.
Proof.
  intros H. induction l as [|x l IH]; simpl; [done|]. by rewrite H, IH.
Qed.
End Filters.

Section Catalogue.
Import mockData SearchSpec.
Variable products : list Product.

Lemma generic_unfold c :
  generic c =
  negb (negb (bool_decide (JS.toLowerCase c = "apparel"))
        && negb (bool_decide (JS.toLowerCase c = "clothing"))
        && negb (bool_decide (JS.toLowerCase c = "apparels"))).
Proof.
  unfold generic. generalize (JS.toLowerCase c). intros lc.
  repeat case_bool_decide; simpl; try reflexivity.
  all: exfalso.
  all: repeat match goal with
         | H : _ ∈ _ :: _ |- _ => apply elem_of_cons in H as [H|H]
         | H : _ ∈ [] |- _ => by apply elem_of_nil in H
         | H : _ ∉ _ |- _ => apply H; subst; repeat constructor
         end; congruence.
Qed.

Lemma category_step (category : option string) :
  match category with
  | Some c =>
      if JS.truthy_string c then
        if negb (bool_decide (JS.toLowerCase c = "apparel"))
           && negb (bool_decide (JS.toLowerCase c = "clothing"))
           && negb (bool_decide (JS.toLowerCase c = "apparels"))
        then List.filter
               (λ p, JS.includes (JS.toLowerCase (p_category p)) (JS.toLowerCase c))
               products
        else products
      else products
  | None => products
  end = List.filter (category_matches category) products.
Proof.
  destruct category as [c|]; [|by rewrite filter_all].
  unfold category_matches. rewrite generic_unfold.
  destruct (JS.truthy_string c) eqn:Hc.
  - destruct (negb _ && _ && _); simpl; [done|].
    by rewrite filter_all.
  - destruct c; [|discriminate Hc].
    rewrite filter_all; [done|]. intros p.
    change (JS.toLowerCase "") with "". by rewrite includes_empty, orb_true_r.
Qed.

Lemma query_step (query : option string) (results : list Product) :
  match query with
  | Some q =>
      if JS.truthy_string q then
        List.filter (λ p, JS.includes (JS.toLowerCase (p_name p)) (JS.toLowerCase q))
          results
      else results
  | None => results
  end = List.filter (name_matches query) results.
Proof.
  destruct query as [q|]; simpl; [|by rewrite filter_all].
  destruct q as [|a q]; simpl; [|done].
  rewrite filter_all; [done|]. intros p. apply includes_empty.
Qed.

Lemma searchProducts_refines query category :
  searchProducts products query category = search products query category.
Proof.
  unfold searchProducts, search.
  rewrite category_step, query_step, filter_twice. reflexivity.
Qed.
End Catalogue.

(** C8. For every query and category, [searchProducts] returns the first
    five, at most, of the products that match, in the order of the
    catalogue. A product matches when its name contains the query and its
    category contains the category, both without regard to case; a
    generic category such as "apparel" or "clothing" filters nothing, so
    that the result is the one of a search without category. When no
    product matches the result is the empty list; the function is total,
    there is no error. *)
Theorem searchProducts_contract (products : list Product)
    (query category : option string) :
  let found := mockData.searchProducts products query category in
  found = take 5 (List.filter (SearchSpec.matches query category) products)
  ∧ (length found ≤ 5)%nat
  ∧ found `sublist_of` products
  ∧ (∀ p q, p ∈ found → query = Some q →
       ∃ pre post, JS.toLowerCase (p_name p) = pre +:+ JS.toLowerCase q +:+ post)
  ∧ (∀ p c, p ∈ found → category = Some c → SearchSpec.generic c = false →
       ∃ pre post, JS.toLowerCase (p_category p) = pre +:+ JS.toLowerCase c +:+ post)
  ∧ (∀ c, SearchSpec.generic c = true →
       mockData.searchProducts products query (Some c)
       = mockData.searchProducts products query None)
  ∧ SearchSpec.generic "apparel" = true ∧ SearchSpec.generic "clothing" = true
  ∧ ((∀ p, p ∈ products → SearchSpec.matches query category p = false) →
       found = []).
Proof.
  intros found.
  assert (Hfound : found = take 5 (List.filter (SearchSpec.matches query category) products))
    by apply searchProducts_refines.
  assert (Hin : ∀ p, p ∈ found → SearchSpec.matches query category p = true).
  { intros p Hp. rewrite Hfound in Hp.
    apply (subseteq_take 5), list_elem_of_In, filter_In in Hp. tauto. }
  split_and!.
  - exact Hfound.
  - rewrite Hfound, length_take. lia.
  - rewrite Hfound. etrans; [apply sublist_take|apply filter_sublist].
  - intros p q Hp ->. apply Hin in Hp. apply andb_prop in Hp as [_ Hp].
    by apply includes_spec.
  - intros p c Hp -> Hg. apply Hin in Hp. apply andb_prop in Hp as [Hp _].
    simpl in Hp. rewrite Hg in Hp. by apply includes_spec.
  - intros c Hg. rewrite !searchProducts_refines. unfold SearchSpec.search.
    f_equal. apply filter_extensional. intros p.
    unfold SearchSpec.matches. simpl. by rewrite Hg.
  - reflexivity.
  - reflexivity.
  - intros Hnone. rewrite Hfound, filter_none; done.
Qed.

Section Hooks.
Import React.
Context {A : Type}.

Lemma next_setState (f : A → A) (h : hook A) : next (setState f h) = f (next h).
Proof. unfold next, setState. simpl. by rewrite fold_left_app. Qed.

Lemma next_setValue (v : A) (h : hook A) : next (setValue v h) = v.
Proof. apply next_setState. Qed.

Lemma next_render (h : hook A) : next (render h) = next h.
Proof. reflexivity. Qed.

Lemma current_render (h : hook A) : current (render h) = next h.
Proof. reflexivity. Qed.

Lemma next_settled (h : hook A) : pending h = [] → next h = current h.
Proof. unfold next. by intros ->. Qed.
End Hooks.

Section CartUpdates.
Import React App Run.

Lemma find_none_absent id (c : list CartItem) :
  id ∉ ids c →
  List.find (λ item, bool_decide (p_id (product item) = id)) c = None.
Proof.
  induction c as [|item c IH]; simpl; [done|]. intros Hid.
  apply not_elem_of_cons in Hid as [Hne Hid].
  rewrite bool_decide_eq_false_2 by done. by apply IH.
Qed.

Lemma find_some_present id (c : list CartItem) :
  id ∈ ids c →
  is_Some (List.find (λ item, bool_decide (p_id (product item) = id)) c).
Proof.
  induction c as [|item c IH]; simpl; intros Hid.
  - by apply elem_of_nil in Hid.
  - case_bool_decide; [by eexists|].
    apply elem_of_cons in Hid as [Hid|Hid]; [congruence|by apply IH].
Qed.

Lemma map_absent id (f : CartItem → CartItem) (c : list CartItem) :
  id ∉ ids c →
  List.map (λ item, if bool_decide (p_id (product item) = id) then f item else item) c
  = c.
Proof.
  induction c as [|item c IH]; simpl; [done|]. intros Hid.
  apply not_elem_of_cons in Hid as [Hne Hid].
  rewrite bool_decide_eq_false_2 by done. by rewrite IH.
Qed.

Lemma addToCart_update_absent prod qty c :
  p_id prod ∉ ids c → addToCart_update prod qty c = c ++ [mkCartItem prod qty].
Proof. intros Hid. unfold addToCart_update. by rewrite find_none_absent. Qed.

Lemma addToCart_update_last prod qty c p q :
  p_id prod ∉ ids c → p_id p = p_id prod →
  addToCart_update prod qty (c ++ [mkCartItem p q]) = c ++ [mkCartItem p (q + qty)].
Proof.
  intros Hid Hp. unfold addToCart_update.
  destruct (find_some_present (p_id prod) (c ++ [mkCartItem p q])) as [x ->].
  { unfold ids. rewrite List.map_app. apply elem_of_app. right. simpl. rewrite Hp. left. }
  rewrite List.map_app, map_absent by done. simpl.
  by rewrite bool_decide_eq_true_2.
Qed.

Lemma addToCart_update_ids prod qty c :
  p_id prod ∈ ids c → ids (addToCart_update prod qty c) = ids c.
Proof.
  intros Hid. unfold addToCart_update.
  destruct (find_some_present _ _ Hid) as [x ->].
  unfold ids. rewrite List.map_map. apply List.map_ext. intros item.
  by case_bool_decide.
Qed.

Lemma addToCart_update_NoDup prod qty c :
  NoDup (ids c) → NoDup (ids (addToCart_update prod qty c)).
Proof.
  intros Hc. destruct (decide (p_id prod ∈ ids c)) as [Hin|Hout].
  - by rewrite addToCart_update_ids.
  - rewrite addToCart_update_absent by done. unfold ids.
    rewrite List.map_app. apply NoDup_app. split_and!; [done| |apply NoDup_singleton].
    simpl. intros x Hx Hx'. apply list_elem_of_singleton in Hx'. by subst.
Qed.

Lemma next_cart_addToCart prod qty s :
  next (cart (addToCart prod qty s)) = addToCart_update prod qty (next (cart s)).
Proof. unfold addToCart. simpl. apply next_setState. Qed.

Lemma run_cons env e events s : run env (e :: events) s = run env events (step env e s).
Proof. reflexivity. Qed.

Lemma run_adds_from_last env id events : ∀ s c0 p q,
  Forall (only_adds_of id) events →
  next (cart s) = c0 ++ [mkCartItem p q] → id ∉ ids c0 → p_id p = id →
  next (cart (run env events s)) = c0 ++ [mkCartItem p (q + sum (added id events))].
Proof.
  induction events as [|e events IH]; intros s c0 p q Hev Hs Hid Hp.
  - simpl. by rewrite Z.add_0_r.
  - apply Forall_cons in Hev as [He Hev]. rewrite run_cons.
    destruct e as [prod qty| | | | |]; simpl in He; try done.
    + rewrite (IH _ c0 p (q + qty)); try done.
      * simpl. rewrite bool_decide_eq_true_2 by done. simpl.
        by rewrite Z.add_assoc.
      * simpl step. rewrite next_cart_addToCart, Hs.
        apply addToCart_update_last; congruence.
    + by apply IH.
Qed.

Lemma run_adds_from_absent env id events : ∀ s,
  Forall (only_adds_of id) events →
  id ∉ ids (next (cart s)) → added id events ≠ [] →
  ∃ p, p_id p = id ∧
    next (cart (run env events s))
    = next (cart s) ++ [mkCartItem p (sum (added id events))].
Proof.
  induction events as [|e events IH]; intros s Hev Hid Hadd; [done|].
  apply Forall_cons in Hev as [He Hev]. rewrite run_cons.
  destruct e as [prod qty| | | | |]; simpl in He; try done.
  - exists prod. split; [done|].
    rewrite (run_adds_from_last env id events _ (next (cart s)) prod qty); try done.
    + simpl. by rewrite bool_decide_eq_true_2.
    + simpl step. rewrite next_cart_addToCart.
      apply addToCart_update_absent. congruence.
  - exact (IH (App.render s) Hev Hid Hadd).
Qed.
End CartUpdates.

(** C6. Let a run consist of [addToCart] calls, all for the same product
    id, and of renders in between, at least one call in all, starting
    from a cart without that product. After the last render the cart is
    the former cart followed by one entry for the product, whose
    quantity is the sum of the quantities added: there is exactly one
    entry with that id. *)
Theorem repeated_addToCart_is_additive (env : Env) (id : string)
    (events : list Run.Event) (s : App.State) :
  Forall (Run.only_adds_of id) events →
  Run.added id events ≠ [] →
  id ∉ Run.ids (React.next (App.cart s)) →
  let final := React.current (App.cart (App.render (Run.run env events s))) in
  ∃ p, p_id p = id
    ∧ final = React.next (App.cart s) ++ [mkCartItem p (Run.sum (Run.added id events))]
    ∧ List.filter (λ item, bool_decide (p_id (product item) = id)) final
      = [mkCartItem p (Run.sum (Run.added id events))].
Proof.
  intros Hev Hadd Hid final.
  destruct (run_adds_from_absent env id events s Hev Hid Hadd) as (p & Hp & Hrun).
  exists p. split; [done|].
  assert (Hfinal : final = React.next (App.cart s)
                           ++ [mkCartItem p (Run.sum (Run.added id events))]).
  { unfold final. simpl. exact Hrun. }
  split; [done|]. rewrite Hfinal, List.filter_app. simpl.
  rewrite bool_decide_eq_true_2 by done.
  rewrite filter_none; [done|]. intros item Hitem.
  apply bool_decide_eq_false_2. intros Heq. apply Hid.
  apply list_elem_of_fmap. by exists item.
Qed.

Lemma repeated_addToCart_is_additive_witness :
  ∃ p, p_id p = "P1000"
    ∧ React.current
        (App.cart
           (App.render
              (Run.run Sample.env
                 [Run.Add Sample.tshirt 2; Run.Render; Run.Add Sample.tshirt 3]
                 Sample.app0)))
      = [] ++ [mkCartItem p 5]
    ∧ List.filter (λ item, bool_decide (p_id (product item) = "P1000"))
        (React.current
           (App.cart
              (App.render
                 (Run.run Sample.env
                    [Run.Add Sample.tshirt 2; Run.Render; Run.Add Sample.tshirt 3]
                    Sample.app0))))
      = [mkCartItem p 5].
Proof.
  apply (repeated_addToCart_is_additive Sample.env "P1000"
           [Run.Add Sample.tshirt 2; Run.Render; Run.Add Sample.tshirt 3]
           Sample.app0).
  - repeat constructor.
  - vm_compute. discriminate.
  - vm_compute. apply not_elem_of_nil.
Defined.

Section Quantities.
Import React App Run.

Lemma updateCartItemQuantity_below_one productId newQuantity s :
  newQuantity < 1 → updateCartItemQuantity productId newQuantity s = s.
Proof.
  intros Hq. unfold updateCartItemQuantity.
  by rewrite (proj2 (Z.ltb_lt _ _) Hq).
Qed.

Lemma addToCart_update_positive prod qty c :
  1 ≤ qty → quantities_positive c → quantities_positive (addToCart_update prod qty c).
Proof.
  intros Hq Hc. unfold addToCart_update.
  destruct (List.find _ c).
  - unfold quantities_positive in *. rewrite Forall_forall in *.
    intros item Hitem. apply list_elem_of_In, in_map_iff in Hitem as (x & <- & Hx).
    apply list_elem_of_In, Hc in Hx. case_bool_decide; simpl; lia.
  - apply Forall_app. split; [done|]. by repeat constructor.
Qed.

Lemma step_keeps_quantities_positive env e s :
  adds_positive e → quantities_positive (next (cart s)) →
  quantities_positive (next (cart (step env e s))).
Proof.
  intros He Hs. destruct e as [prod qty|productId q|productId| | |]; cbn [step].
  - rewrite next_cart_addToCart. by apply addToCart_update_positive.
  - unfold updateCartItemQuantity. destruct (q <? 1) eqn:Hq; [done|].
    apply Z.ltb_ge in Hq. cbn [set_cart cart]. rewrite next_setState.
    unfold quantities_positive in *. rewrite Forall_forall in *.
    intros item Hitem. apply list_elem_of_In, in_map_iff in Hitem as (x & <- & Hx).
    apply list_elem_of_In, Hs in Hx. by case_bool_decide.
  - cbn [removeFromCart set_cart cart]. rewrite next_setState.
    unfold quantities_positive in *.
    rewrite Forall_forall in *. intros item Hitem.
    apply list_elem_of_In, filter_In in Hitem as [Hitem _].
    by apply Hs, list_elem_of_In.
  - cbn [clearCart set_cart cart]. rewrite next_setValue. constructor.
  - cbn [handleCheckout snd cart]. rewrite next_setValue. constructor.
  - done.
Qed.

Lemma run_keeps_quantities_positive env events : ∀ s,
  Forall adds_positive events → quantities_positive (next (cart s)) →
  quantities_positive (next (cart (run env events s))).
Proof.
  induction events as [|e events IH]; intros s Hev Hs; [done|].
  apply Forall_cons in Hev as [He Hev]. rewrite run_cons.
  by apply IH, step_keeps_quantities_positive.
Qed.
End Quantities.

(** C5 fails on the tool path. At launch, an [add_to_cart] call for the
    red T-shirt with quantity -5 succeeds and, once rendered, the cart
    holds that product with quantity -5: [quantity || 1] replaces a
    missing or zero quantity only, where [updateCartItemQuantity]
    refuses anything below 1. *)
Theorem add_to_cart_accepts_negative_quantity :
  let batch := [Sample.add_to_cart (Some "red t-shirt") (Some (-5))] in
  let after := LiveSupport.onmessage_toolCall Sample.env (InStore 0) batch Sample.live0 in
  LiveSupport.success_of <$> (match after.1 with
                              | LiveSupport.Normal [r] => Some (LiveSupport.fr_result r)
                              | _ => None
                              end) = Some (Some true)
  ∧ React.current (App.cart (LiveSupport.app (LiveSupport.commit after.2)))
    = [mkCartItem Sample.tshirt (-5)]
  ∧ ¬ Run.quantities_positive
        (React.current (App.cart (LiveSupport.app (LiveSupport.commit after.2)))).
Proof.
  assert (H : React.current
                (App.cart
                   (LiveSupport.app
                      (LiveSupport.commit
                         (LiveSupport.onmessage_toolCall Sample.env (InStore 0)
                            [Sample.add_to_cart (Some "red t-shirt") (Some (-5))]
                            Sample.live0).2)))
              = [mkCartItem Sample.tshirt (-5)]) by (vm_compute; reflexivity).
  split_and!.
  - vm_compute. reflexivity.
  - exact H.
  - rewrite H. intros Hpos. apply Forall_cons in Hpos as [Hq _]. simpl in Hq. lia.
Qed.

Section Orders.
Import React App.

Lemma history_after_checkout env s :
  history (checkout env s).2
  = newOrder_of env (closure_of s) s :: history s.
Proof.
  unfold checkout, history. simpl.
  unfold next. simpl. rewrite fold_left_app. reflexivity.
Qed.

Lemma cart_after_checkout env s : current (cart (checkout env s).2) = [].
Proof.
  unfold checkout. simpl. unfold next. simpl. by rewrite fold_left_app.
Qed.

Lemma fold_total_from (c : list CartItem) : ∀ acc,
  fold_left (λ sum item, sum + p_price (product item) * quantity item) c acc
  = acc + Run.sum (List.map (λ item, p_price (product item) * quantity item) c).
Proof.
  induction c as [|item c IH]; intros acc; simpl; [lia|]. rewrite IH. lia.
Qed.

Lemma cart_total_sum c :
  cart_total c = Run.sum (List.map (λ item, p_price (product item) * quantity item) c).
Proof. unfold cart_total. by rewrite fold_total_from. Qed.

Lemma find_in_catalogue (products : list Product) (p : Product) :
  NoDup (List.map p_id products) → p ∈ products →
  List.find (λ x, bool_decide (p_id x = p_id p)) products = Some p.
Proof.
  induction products as [|x products IH]; simpl; intros Hnd Hp.
  - by apply elem_of_nil in Hp.
  - apply NoDup_cons in Hnd as [Hx Hnd].
    apply elem_of_cons in Hp as [->|Hp].
    + by rewrite bool_decide_eq_true_2.
    + rewrite bool_decide_eq_false_2; [by apply IH|].
      intros Heq. apply Hx. rewrite Heq. apply list_elem_of_fmap. by exists p.
Qed.

Lemma calcTotal_from (products : list Product) (c : list CartItem) :
  NoDup (List.map p_id products) →
  Forall (λ item, product item ∈ products) c →
  ∀ acc,
    fold_left
      (λ acc item,
         acc + match List.find (λ p, bool_decide (p_id p = productId item)) products with
               | Some p => p_price p * oi_quantity item
               | None => 0
               end)
      (List.map (λ item, mkOrderItem (p_id (product item)) (quantity item)) c) acc
    = fold_left (λ sum item, sum + p_price (product item) * quantity item) c acc.
Proof.
  intros Hnd. induction c as [|item c IH]; intros Hc acc; simpl; [done|].
  apply Forall_cons in Hc as [Hitem Hc].
  rewrite (find_in_catalogue products (product item)) by done.
  by apply IH.
Qed.

Lemma calcTotal_of_cart (products : list Product) (c : list CartItem) :
  NoDup (List.map p_id products) →
  Forall (λ item, product item ∈ products) c →
  mockData.calcTotal products
    (List.map (λ item, mkOrderItem (p_id (product item)) (quantity item)) c)
  = cart_total c.
Proof. intros Hnd Hc. by apply calcTotal_from. Qed.
End Orders.

(** C1 as stated fails on [handleCheckout], the function behind
    [placeOrder]: at launch the cart is empty and the active customer has
    no order; checkout returns an order id all the same and the history
    then holds an order without items. *)
Lemma checkout_of_empty_cart_creates_order :
  React.current (App.cart Sample.app0) = []
  ∧ App.history Sample.app0 = []
  ∧ (App.checkout Sample.env Sample.app0).1 = "ORD-7782"
  ∧ App.history (App.checkout Sample.env Sample.app0).2
    = [mkOrder "ORD-7782" "2024-01-15" Processing [] 0].
Proof. vm_compute. done. Qed.

(** C1, amended. When the cart that the voice dispatcher consults,
    [cartRef.current], is empty, a [place_order] call yields the failure
    [{success: false, message: "Cart is empty. Cannot place order."}]
    and leaves the state as it is: checkout is not called, no order is
    created, no history changes and no order id is produced. The guard
    is the dispatcher's; [handleCheckout] has none, and for an empty cart
    it returns the id of a new order with no items and total 0 and
    requests it at the front of the history of the active customer. *)
Theorem place_order_guards_empty_cart (env : Env) (sessionUser : UserRef)
    (fc : LiveSupport.FunctionCall) (l : LiveSupport.State) :
  LiveSupport.fc_name fc = "place_order" →
  LiveSupport.cartRef l = [] →
  LiveSupport.dispatch env sessionUser fc l
  = LiveSupport.Normal
      (LiveSupport.MessageResult false "Cart is empty. Cannot place order.", l)
  ∧ ∀ cl s, App.cl_cart cl = [] →
      let order := App.newOrder_of env cl s in
      let user := App.deref (App.CUSTOMERS s) (App.cl_currentUser cl) in
      (App.handleCheckout env cl s).1 = o_id order
      ∧ o_items order = [] ∧ o_total order = 0
      ∧ React.next (App.currentUser (App.handleCheckout env cl s).2)
        = Detached (with_orders user (order :: orders user)).
Proof.
  intros Hname Hcart. split.
  - unfold LiveSupport.dispatch. rewrite Hname, Hcart. reflexivity.
  - intros cl s Hcl order user. split_and!.
    + reflexivity.
    + subst order. unfold App.newOrder_of. cbn [o_items]. by rewrite Hcl.
    + subst order. unfold App.newOrder_of. cbn [o_total]. by rewrite Hcl.
    + cbn [App.handleCheckout snd App.currentUser]. apply next_setValue.
Qed.

Lemma place_order_guards_empty_cart_witness :
  LiveSupport.dispatch Sample.env (InStore 0) Sample.place_order Sample.live0
  = LiveSupport.Normal
      (LiveSupport.MessageResult false "Cart is empty. Cannot place order.",
       Sample.live0).
Proof.
  refine (proj1 (place_order_guards_empty_cart Sample.env (InStore 0) Sample.place_order
           Sample.live0 _ _)); reflexivity.
Defined.

Section OrderIds.
Import React App.

Lemma append_inj_r (p a b : string) : p +:+ a = p +:+ b → a = b.
Proof.
  induction p as [|c p IH]; [done|]. rewrite !append_String.
  intros H. injection H as H. by apply IH.
Qed.

Lemma floor_scaled_range (r : Q) (k : Z) :
  0 < k → (0 <= r)%Q → (r < 1)%Q → 0 ≤ JS.Math_floor (r * inject_Z k) < k.
Proof.
  intros Hk H0 H1. unfold JS.Math_floor. split.
  - change 0 with (Qfloor 0). apply Qfloor_resp_le.
    apply Qmult_le_0_compat; [done|].
    change 0%Q with (inject_Z 0). rewrite <- Zle_Qle. lia.
  - rewrite Zlt_Qlt. eapply Qle_lt_trans; [apply Qfloor_le|].
    rewrite <- (Qmult_1_l (inject_Z k)) at 2.
    apply Qmult_lt_compat_r; [|done].
    change 0%Q with (inject_Z 0). rewrite <- Zlt_Qlt. lia.
Qed.
End OrderIds.

(** C7 as stated fails: Alice has the seeded order ORD-7782; when
    [Math.random()] gives 0.77825 her checkout returns ORD-7782 again and
    her history holds that id twice. *)
Lemma checkout_can_reuse_an_order_id :
  React.current (App.cart Sample.alice_shopping) ≠ []
  ∧ (App.checkout Sample.env Sample.alice_shopping).1 = "ORD-7782"
  ∧ List.map o_id (App.history Sample.alice_shopping) = ["ORD-7782"; "ORD-9921"]
  ∧ List.map o_id (App.history (App.checkout Sample.env Sample.alice_shopping).2)
    = ["ORD-7782"; "ORD-7782"; "ORD-9921"].
Proof. vm_compute. done. Qed.

(** C7, amended. Every checkout returns the id "ORD-" followed by the
    decimal digits of [Math.floor(Math.random() * 10000)], a number from
    0 to 9999. The id is not compared with the ids in any history: it is
    the id "ORD-m" exactly when the number drawn is m, and so differs
    from an order ORD-m already present exactly when the draw is not m. *)
Theorem order_id_is_the_random_draw (env : Env) (cl : App.Closure) (s : App.State) :
  let r := Math_random env (App.random_calls s) in
  (0 <= r)%Q → (r < 1)%Q →
  let n := JS.Math_floor (r * 10000) in
  let orderId := (App.handleCheckout env cl s).1 in
  orderId = "ORD-" +:+ JS.toString n
  ∧ 0 ≤ n < 10000
  ∧ ∀ m : Z, orderId = "ORD-" +:+ JS.toString m ↔ m = n.
Proof.
  intros r H0 H1 n orderId. split; [|split].
  - reflexivity.
  - apply (floor_scaled_range r 10000); done.
  - intros m. split.
    + intros H. apply append_inj_r in H. unfold JS.toString in H.
      symmetry. by apply (inj pretty).
    + by intros ->.
Qed.

Lemma order_id_is_the_random_draw_witness :
  (App.handleCheckout Sample.env (App.closure_of Sample.alice_shopping)
     Sample.alice_shopping).1 = "ORD-" +:+ JS.toString 7782
  ∧ 0 ≤ 7782 < 10000
  ∧ ∀ m : Z,
      (App.handleCheckout Sample.env (App.closure_of Sample.alice_shopping)
         Sample.alice_shopping).1 = "ORD-" +:+ JS.toString m ↔ m = 7782.
Proof.
  apply (order_id_is_the_random_draw Sample.env
           (App.closure_of Sample.alice_shopping) Sample.alice_shopping).
  - vm_compute. discriminate.
  - vm_compute. reflexivity.
Defined.

Lemma sample_catalogue_ids_unique : NoDup (List.map p_id (PRODUCTS Sample.env)).
Proof. apply (bool_decide_unpack _). vm_compute. reflexivity. Qed.

Section SharedCustomers.
Import React App.

Lemma find_after_prepend (uid : string) (f : Customer → Customer)
    (customers : list Customer) :
  (∀ c, c_id (f c) = c_id c) →
  List.find (λ c, bool_decide (c_id c = uid))
    (match list_find (λ c, c_id c = uid) customers with
     | Some (customerIndex, _) => alter f customerIndex customers
     | None => customers
     end)
  = f <$> List.find (λ c, bool_decide (c_id c = uid)) customers.
Proof.
  intros Hf. induction customers as [|x customers IH]; [done|].
  cbn [list_find List.find]. destruct (decide (c_id x = uid)) as [Hx|Hx].
  - rewrite (bool_decide_eq_true_2 _ Hx). cbn.
    by rewrite bool_decide_eq_true_2 by (by rewrite Hf).
  - rewrite (bool_decide_eq_false_2 _ Hx).
    destruct (list_find (λ c, c_id c = uid) customers) as [[k c]|]; cbn.
    + rewrite (bool_decide_eq_false_2 _ Hx). exact IH.
    + rewrite (bool_decide_eq_false_2 _ Hx). exact IH.
Qed.

Lemma find_member (uid : string) (customers : list Customer) (c : Customer) :
  c ∈ customers → c_id c = uid →
  is_Some (List.find (λ c, bool_decide (c_id c = uid)) customers).
Proof.
  induction customers as [|x customers IH]; intros Hc Hid.
  - by apply elem_of_nil in Hc.
  - simpl. case_bool_decide; [by eexists|].
    apply elem_of_cons in Hc as [->|Hc]; [done|by apply IH].
Qed.

Lemma deref_id_after_prepend (f : Customer → Customer) (customers : list Customer)
    (k : nat) (r : UserRef) :
  (∀ c, c_id (f c) = c_id c) →
  c_id (deref (alter f k customers) r) = c_id (deref customers r).
Proof.
  intros Hf. destruct r as [i|c]; [|done]. simpl.
  destruct (decide (k = i)) as [->|Hne].
  - rewrite list_lookup_alter_eq. destruct (customers !! i); simpl; [apply Hf|done].
  - by rewrite list_lookup_alter_ne.
Qed.

Lemma customers_after_checkout env cl s :
  let user := deref (CUSTOMERS s) (cl_currentUser cl) in
  let order := newOrder_of env cl s in
  CUSTOMERS (handleCheckout env cl s).2
  = match list_find (λ c, c_id c = c_id user) (CUSTOMERS s) with
    | Some (customerIndex, _) =>
        alter (λ c, with_orders c (order :: orders c)) customerIndex (CUSTOMERS s)
    | None => CUSTOMERS s
    end.
Proof. reflexivity. Qed.

Lemma getCustomerOrders_after_checkout env cl s c :
  let user := deref (CUSTOMERS s) (cl_currentUser cl) in
  c ∈ CUSTOMERS s → c_id c = c_id user →
  mockData.getCustomerOrders (CUSTOMERS (handleCheckout env cl s).2) (c_id user)
  = newOrder_of env cl s :: mockData.getCustomerOrders (CUSTOMERS s) (c_id user).
Proof.
  intros user Hc Hid. unfold mockData.getCustomerOrders.
  rewrite customers_after_checkout. fold user.
  rewrite (find_after_prepend (c_id user)) by done.
  destruct (find_member (c_id user) (CUSTOMERS s) c Hc Hid) as [x ->]. done.
Qed.

Lemma deref_id_after_checkout env cl s r :
  c_id (deref (CUSTOMERS (handleCheckout env cl s).2) r) = c_id (deref (CUSTOMERS s) r).
Proof.
  rewrite customers_after_checkout.
  destruct (list_find _ _) as [[k c]|]; [|done].
  by apply deref_id_after_prepend.
Qed.
End SharedCustomers.

(** C2 as stated fails: the order and the clearing of the cart do not
    take effect together. Alice, who is in [CUSTOMERS], has two T-shirts
    and a pair of jeans in her cart, 90 in all, and two earlier orders.
    When [handleCheckout] returns, the new order is at the front of her
    history, in [currentUser.orders] as in what [getCustomerOrders]
    reads, while the cart still holds the three pieces; the cart is
    empty only after the render that follows. The voice channel is in
    that state after a [place_order]: the order is on record and
    [cartRef.current] is the full cart. *)
Lemma order_exists_before_cart_is_cleared :
  let called :=
    (App.handleCheckout Sample.env (App.closure_of Sample.alice_shopping)
       Sample.alice_shopping).2 in
  let handled :=
    (LiveSupport.onmessage_toolCall Sample.env (InStore 1) [Sample.place_order]
       Sample.alice_live).2 in
  List.map o_total (App.history Sample.alice_shopping) = [150; 80]
  ∧ List.map o_total (App.history called) = [90; 150; 80]
  ∧ List.map o_total (mockData.getCustomerOrders (App.CUSTOMERS called) "C1")
    = [90; 150; 80]
  ∧ React.current (App.cart called)
    = [mkCartItem Sample.tshirt 2; mkCartItem Sample.jeans 1]
  ∧ React.current (App.cart (App.render called)) = []
  ∧ List.map o_total
      (mockData.getCustomerOrders (App.CUSTOMERS (LiveSupport.app handled)) "C1")
    = [90; 150; 80]
  ∧ LiveSupport.cartRef handled
    = [mkCartItem Sample.tshirt 2; mkCartItem Sample.jeans 1].
Proof. vm_compute. done. Qed.

(** C2, amended. Take a state with a non-empty cart of catalogue
    products and no update pending. Checkout, that is the call of
    [handleCheckout] and the render that follows it, puts exactly one
    new order at the front of the history of the active customer; the
    total of that order is the sum of price times quantity over the cart
    as it was, which is also its total at the prices of the catalogue
    ([calcTotal]); the cart is empty afterwards and the id returned is
    the id of the new order. The two effects are requested by the one
    call but do not take effect together. When [handleCheckout] returns,
    the order is already written into [CUSTOMERS], at the front of what
    [getCustomerOrders] gives for the active customer when that customer
    is there, and the cart is still what it was, its clearing and the
    new [currentUser] being queued; the render that follows empties the
    cart, leaves [CUSTOMERS] as the call left it and nothing pending. *)
Theorem checkout_creates_one_order_and_clears_cart (env : Env) (s : App.State) :
  React.pending (App.cart s) = [] →
  React.pending (App.currentUser s) = [] →
  React.current (App.cart s) ≠ [] →
  NoDup (List.map p_id (PRODUCTS env)) →
  Forall (λ item, product item ∈ PRODUCTS env) (React.current (App.cart s)) →
  let before := React.current (App.cart s) in
  let user := App.deref (App.CUSTOMERS s) (React.current (App.currentUser s)) in
  let called := App.handleCheckout env (App.closure_of s) s in
  let after := App.render called.2 in
  ∃ newOrder,
    App.checkout env s = (o_id newOrder, after)
    ∧ App.history after = newOrder :: App.history s
    ∧ o_items newOrder
      = List.map (λ item, mkOrderItem (p_id (product item)) (quantity item)) before
    ∧ o_total newOrder
      = Run.sum (List.map (λ item, p_price (product item) * quantity item) before)
    ∧ o_total newOrder = mockData.calcTotal (PRODUCTS env) (o_items newOrder)
    ∧ React.current (App.cart after) = []
    ∧ (∀ c, c ∈ App.CUSTOMERS s → c_id c = c_id user →
         mockData.getCustomerOrders (App.CUSTOMERS called.2) (c_id user)
         = newOrder :: mockData.getCustomerOrders (App.CUSTOMERS s) (c_id user))
    ∧ React.current (App.cart called.2) = before
    ∧ React.current (App.currentUser called.2) = React.current (App.currentUser s)
    ∧ React.pending (App.cart called.2) = [λ _, []]
    ∧ React.pending (App.currentUser called.2)
      = [λ _, Detached (with_orders user (newOrder :: orders user))]
    ∧ App.CUSTOMERS after = App.CUSTOMERS called.2
    ∧ React.pending (App.cart after) = []
    ∧ React.pending (App.currentUser after) = [].
Proof.
  intros Hcart Huser Hne Hnd Hcat before user called after.
  exists (App.newOrder_of env (App.closure_of s) s).
  split_and!.
  - reflexivity.
  - apply (history_after_checkout env s).
  - reflexivity.
  - apply cart_total_sum.
  - symmetry. by apply calcTotal_of_cart.
  - apply (cart_after_checkout env s).
  - intros c Hc Hid.
    by apply (getCustomerOrders_after_checkout env (App.closure_of s) s c).
  - reflexivity.
  - reflexivity.
  - cbn. by rewrite Hcart.
  - cbn. by rewrite Huser.
  - reflexivity.
  - reflexivity.
  - reflexivity.
Qed.

Lemma checkout_creates_one_order_and_clears_cart_witness :
  ∃ newOrder,
    App.checkout Sample.env Sample.alice_shopping
    = (o_id newOrder,
       App.render
         (App.handleCheckout Sample.env (App.closure_of Sample.alice_shopping)
            Sample.alice_shopping).2)
    ∧ App.history
        (App.render
           (App.handleCheckout Sample.env (App.closure_of Sample.alice_shopping)
              Sample.alice_shopping).2)
      = newOrder :: App.history Sample.alice_shopping
    ∧ o_total newOrder = 90
    ∧ React.current
        (App.cart
           (App.render
              (App.handleCheckout Sample.env (App.closure_of Sample.alice_shopping)
                 Sample.alice_shopping).2)) = []
    ∧ mockData.getCustomerOrders
        (App.CUSTOMERS
           (App.handleCheckout Sample.env (App.closure_of Sample.alice_shopping)
              Sample.alice_shopping).2) "C1"
      = newOrder :: mockData.getCustomerOrders Sample.customers "C1"
    ∧ React.current
        (App.cart
           (App.handleCheckout Sample.env (App.closure_of Sample.alice_shopping)
              Sample.alice_shopping).2)
      = [mkCartItem Sample.tshirt 2; mkCartItem Sample.jeans 1].
Proof.
  destruct (checkout_creates_one_order_and_clears_cart Sample.env Sample.alice_shopping)
    as (newOrder & Hcheckout & Hhistory & _ & Htotal & _ & Hcart & Hstore & Hstill & _).
  - reflexivity.
  - reflexivity.
  - vm_compute. discriminate.
  - exact sample_catalogue_ids_unique.
  - apply (bool_decide_unpack _). vm_compute. reflexivity.
  - exists newOrder. split_and!.
    + exact Hcheckout.
    + exact Hhistory.
    + rewrite Htotal. vm_compute. reflexivity.
    + exact Hcart.
    + apply (Hstore (App.deref Sample.customers (InStore 1))).
      * apply list_elem_of_lookup. by exists 1%nat.
      * reflexivity.
    + exact Hstill.
Defined.

Section DispatchEquations.
Import LiveSupport.
Variables (env : Env) (sessionUser : UserRef) (fc : FunctionCall) (l : State).

Lemma dispatch_search_products :
  fc_name fc = "search_products" →
  dispatch env sessionUser fc l
  = Normal (ProductsResult
              (mockData.searchProducts (PRODUCTS env) (query (fc_args fc))
                 (category (fc_args fc))), l).
Proof. intros H. unfold dispatch. rewrite H. reflexivity. Qed.

Lemma dispatch_get_my_orders :
  fc_name fc = "get_my_orders" →
  dispatch env sessionUser fc l
  = Normal (OrdersResult
              (mockData.getCustomerOrders (App.CUSTOMERS (app l))
                 (c_id (App.deref (App.CUSTOMERS (app l)) sessionUser))), l).
Proof. intros H. unfold dispatch. rewrite H. reflexivity. Qed.

Lemma dispatch_add_to_cart :
  fc_name fc = "add_to_cart" →
  dispatch env sessionUser fc l
  = match find_product (PRODUCTS env) (productName (fc_args fc)) with
    | Throws e => Throws e
    | Normal (Some foundProduct) =>
        let qty := JS.or_number (a_quantity (fc_args fc)) 1 in
        Normal (MessageResult true
                  ("Added " +:+ JS.toString qty +:+ " x " +:+ p_name foundProduct
                   +:+ " to cart. Total: $"
                   +:+ JS.toString (p_price foundProduct * qty)
                   +:+ ". [SYSTEM HINT: The user bought "
                   +:+ p_category foundProduct +:+ ". "
                   +:+ recommendation_for (p_category foundProduct) +:+ "]"),
                set_app (App.addToCart foundProduct qty (app l)) l)
    | Normal None =>
        Normal (MessageResult false
                  ("Product " +:+ JS.dquote +:+ show_name (productName (fc_args fc))
                   +:+ JS.dquote +:+ " not found."), l)
    end.
Proof. intros H. unfold dispatch. rewrite H. reflexivity. Qed.

Lemma dispatch_place_order :
  fc_name fc = "place_order" →
  dispatch env sessionUser fc l
  = if bool_decide (length (cartRef l) = 0%nat) then
      Normal (MessageResult false "Cart is empty. Cannot place order.", l)
    else
      Normal (OrderResult true (App.handleCheckout env (placeOrderRef l) (app l)).1
                ("Order placed successfully. Order ID: "
                 +:+ (App.handleCheckout env (placeOrderRef l) (app l)).1
                 +:+ ". You MUST tell the user this ID."),
              set_app (App.handleCheckout env (placeOrderRef l) (app l)).2 l).
Proof. intros H. unfold dispatch. rewrite H. reflexivity. Qed.

Lemma dispatch_escalate_issue :
  fc_name fc = "escalate_issue" →
  let l1 := commit l in
  let ticket :=
    createEscalationTicket env
      (c_id (App.deref (App.CUSTOMERS (app l1)) sessionUser))
      (reason (fc_args fc)) (app l1) in
  dispatch env sessionUser fc l
  = Normal (TicketResult true ticket.1
              ("Escalation successful. Ticket ID: " +:+ ticket.1
               +:+ ". Inform the user."),
            set_app ticket.2 l1).
Proof. intros H. unfold dispatch. rewrite H. reflexivity. Qed.

Lemma dispatch_unknown :
  fc_name fc ∉ ["search_products"; "get_my_orders"; "add_to_cart"; "place_order";
                "escalate_issue"] →
  dispatch env sessionUser fc l = Normal (ErrorResult "Unknown tool", l).
Proof.
  intros H. unfold dispatch.
  rewrite !bool_decide_eq_false_2; [done|..]; intros Heq; apply H; rewrite Heq;
    repeat constructor.
Qed.
End DispatchEquations.

(** C10. Let [place_order] be dispatched for a non-empty cart and let the
    customer of the session be the active customer, who is in
    [CUSTOMERS]. The call succeeds with the id of a new order, and a
    [get_my_orders] dispatched right after it, in the same batch, returns
    the history that [getCustomerOrders] had before with the new order at
    its front: [handleCheckout] writes the order into [CUSTOMERS] at once,
    besides requesting the update of [currentUser]. *)
Theorem get_my_orders_sees_the_new_order (env : Env) (sessionUser : UserRef)
    (place get : LiveSupport.FunctionCall) (l : LiveSupport.State) (c : Customer) :
  LiveSupport.fc_name place = "place_order" →
  LiveSupport.fc_name get = "get_my_orders" →
  LiveSupport.cartRef l ≠ [] →
  let customers := App.CUSTOMERS (LiveSupport.app l) in
  let user := App.deref customers (App.cl_currentUser (LiveSupport.placeOrderRef l)) in
  c_id (App.deref customers sessionUser) = c_id user →
  c ∈ customers → c_id c = c_id user →
  ∃ newOrder message l1,
    LiveSupport.dispatch env sessionUser place l
    = LiveSupport.Normal (LiveSupport.OrderResult true (o_id newOrder) message, l1)
    ∧ LiveSupport.dispatch env sessionUser get l1
      = LiveSupport.Normal
          (LiveSupport.OrdersResult
             (newOrder :: mockData.getCustomerOrders customers (c_id user)), l1)
    ∧ LiveSupport.onmessage_toolCall env sessionUser [place; get] l
      = (LiveSupport.Normal
           [LiveSupport.mkResponse (LiveSupport.fc_id place) "place_order"
              (LiveSupport.OrderResult true (o_id newOrder) message);
            LiveSupport.mkResponse (LiveSupport.fc_id get) "get_my_orders"
              (LiveSupport.OrdersResult
                 (newOrder :: mockData.getCustomerOrders customers (c_id user)))],
         l1)
    ∧ React.next (App.currentUser (LiveSupport.app l1))
      = Detached (with_orders user (newOrder :: orders user)).
Proof.
  intros Hplace Hget Hcart customers user Hsame Hc Hid.
  subst customers user.
  set (cl := LiveSupport.placeOrderRef l) in *.
  set (a := LiveSupport.app l) in *.
  exists (App.newOrder_of env cl a).
  eexists. exists (LiveSupport.set_app (App.handleCheckout env cl a).2 l).
  assert (H1 : LiveSupport.dispatch env sessionUser place l
               = LiveSupport.Normal
                   (LiveSupport.OrderResult true (o_id (App.newOrder_of env cl a))
                      ("Order placed successfully. Order ID: "
                       +:+ o_id (App.newOrder_of env cl a)
                       +:+ ". You MUST tell the user this ID."),
                    LiveSupport.set_app (App.handleCheckout env cl a).2 l)).
  { rewrite dispatch_place_order by done.
    rewrite bool_decide_eq_false_2; [reflexivity|].
    by destruct (LiveSupport.cartRef l). }
  assert (H2 : LiveSupport.dispatch env sessionUser get
                 (LiveSupport.set_app (App.handleCheckout env cl a).2 l)
               = LiveSupport.Normal
                   (LiveSupport.OrdersResult
                      (App.newOrder_of env cl a
                       :: mockData.getCustomerOrders (App.CUSTOMERS a)
                            (c_id (App.deref (App.CUSTOMERS a) (App.cl_currentUser cl)))),
                    LiveSupport.set_app (App.handleCheckout env cl a).2 l)).
  { rewrite dispatch_get_my_orders by done.
    cbn [LiveSupport.set_app LiveSupport.app].
    rewrite deref_id_after_checkout. rewrite Hsame.
    by rewrite (getCustomerOrders_after_checkout env cl a c). }
  split_and!.
  - exact H1.
  - exact H2.
  - unfold LiveSupport.onmessage_toolCall. cbn [LiveSupport.dispatch_all].
    rewrite H1, H2. cbn [app]. by rewrite Hplace, Hget.
  - cbn [LiveSupport.set_app LiveSupport.app App.handleCheckout snd App.currentUser].
    apply next_setValue.
Qed.

Lemma get_my_orders_sees_the_new_order_witness :
  ∃ newOrder message l1,
    LiveSupport.dispatch Sample.env (InStore 1) Sample.place_order Sample.alice_live
    = LiveSupport.Normal (LiveSupport.OrderResult true (o_id newOrder) message, l1)
    ∧ LiveSupport.dispatch Sample.env (InStore 1) Sample.get_my_orders l1
      = LiveSupport.Normal
          (LiveSupport.OrdersResult
             (newOrder :: mockData.getCustomerOrders Sample.customers "C1"), l1).
Proof.
  destruct (get_my_orders_sees_the_new_order Sample.env (InStore 1)
              Sample.place_order Sample.get_my_orders Sample.alice_live
              (App.deref Sample.customers (InStore 1)))
    as (newOrder & message & l1 & H1 & H2 & _).
  - reflexivity.
  - reflexivity.
  - vm_compute. discriminate.
  - reflexivity.
  - apply list_elem_of_lookup. by exists 1%nat.
  - reflexivity.
  - exists newOrder, message, l1. split; [exact H1|exact H2].
Defined.

Section LaterTurn.
Import React App.

Lemma addToCart_update_not_empty prod qty c : addToCart_update prod qty c ≠ [].
Proof.
  unfold addToCart_update. destruct (List.find _ c) eqn:Hfind.
  - apply find_some in Hfind as [Hin _]. destruct c; [done|discriminate].
  - by destruct c.
Qed.

Lemma addToCart_update_has_product prod qty c :
  p_id prod ∈ Run.ids (addToCart_update prod qty c).
Proof.
  destruct (decide (p_id prod ∈ Run.ids c)) as [Hin|Hout].
  - by rewrite addToCart_update_ids.
  - rewrite addToCart_update_absent by done. unfold Run.ids.
    rewrite List.map_app. apply elem_of_app. right. simpl. left.
Qed.
End LaterTurn.

(** What does hold of C3: once React has committed a successful
    [add_to_cart], the cart that a [place_order] of a later turn
    consults holds the product, the call succeeds and the order has the
    product among its items. *)
Lemma later_place_order_sees_the_addition (env : Env) (sessionUser : UserRef)
    (add place : LiveSupport.FunctionCall) (l l1 : LiveSupport.State)
    (message : string) :
  LiveSupport.fc_name add = "add_to_cart" →
  LiveSupport.fc_name place = "place_order" →
  LiveSupport.dispatch env sessionUser add l
  = LiveSupport.Normal (LiveSupport.MessageResult true message, l1) →
  ∃ foundProduct,
    LiveSupport.find_product (PRODUCTS env)
      (LiveSupport.productName (LiveSupport.fc_args add))
    = LiveSupport.Normal (Some foundProduct)
    ∧ p_id foundProduct ∈ Run.ids (LiveSupport.cartRef (LiveSupport.commit l1))
    ∧ ∃ order message' l2,
        LiveSupport.dispatch env sessionUser place (LiveSupport.commit l1)
        = LiveSupport.Normal (LiveSupport.OrderResult true (o_id order) message', l2)
        ∧ p_id foundProduct ∈ List.map productId (o_items order).
Proof.
  intros Hadd Hplace Hdispatch.
  rewrite dispatch_add_to_cart in Hdispatch by done.
  destruct (LiveSupport.find_product _ _) as [[foundProduct|]|] eqn:Hfind;
    [|discriminate Hdispatch..].
  injection Hdispatch as _ <-.
  exists foundProduct. split; [done|].
  set (qty := JS.or_number _ _).
  assert (Hcart : LiveSupport.cartRef
                    (LiveSupport.commit
                       (LiveSupport.set_app
                          (App.addToCart foundProduct qty (LiveSupport.app l)) l))
                  = App.addToCart_update foundProduct qty
                      (React.next (App.cart (LiveSupport.app l)))).
  { cbn. unfold React.next. cbn. by rewrite fold_left_app. }
  split.
  - rewrite Hcart. apply addToCart_update_has_product.
  - rewrite dispatch_place_order by done.
    rewrite bool_decide_eq_false_2.
    + eexists (App.newOrder_of env _ _), _, _. split; [reflexivity|].
      cbn [App.newOrder_of o_items]. rewrite List.map_map.
      change (App.cl_cart
                (LiveSupport.placeOrderRef
                   (LiveSupport.commit
                      (LiveSupport.set_app
                         (App.addToCart foundProduct qty (LiveSupport.app l)) l))))
        with (LiveSupport.cartRef
                (LiveSupport.commit
                   (LiveSupport.set_app
                      (App.addToCart foundProduct qty (LiveSupport.app l)) l))).
      rewrite Hcart. apply addToCart_update_has_product.
    + rewrite Hcart. intros Hlen. apply nil_length_inv in Hlen.
      by apply addToCart_update_not_empty in Hlen.
Qed.

(** C3 fails inside a batch. At launch, with an empty cart, the batch
    [add_to_cart "Vintage Red T-Shirt"; place_order] adds the T-shirt
    with success and the [place_order] right after it answers that the
    cart is empty: the addition is queued in React, [cartRef.current] is
    refreshed by the effect of the next render only, and no order is
    created although the cart to come holds the T-shirt. *)
Theorem place_order_misses_addition_of_same_batch :
  let batch := [Sample.add_to_cart (Some "Vintage Red T-Shirt") None;
                Sample.place_order] in
  let handled :=
    LiveSupport.onmessage_toolCall Sample.env (InStore 0) batch Sample.live0 in
  handled.1
  = LiveSupport.Normal
      [LiveSupport.mkResponse "call-1" "add_to_cart"
         (LiveSupport.MessageResult true
            "Added 1 x Vintage Red T-Shirt to cart. Total: $20. [SYSTEM HINT: The user bought T-Shirt. Suggest Jeans.]");
       LiveSupport.mkResponse "call-1" "place_order"
         (LiveSupport.MessageResult false "Cart is empty. Cannot place order.")]
  ∧ React.next (App.cart (LiveSupport.app handled.2)) = [mkCartItem Sample.tshirt 1]
  ∧ LiveSupport.cartRef handled.2 = []
  ∧ App.CUSTOMERS (LiveSupport.app handled.2) = Sample.customers.
Proof. vm_compute. done. Qed.

(** The same staleness when the cart is not empty: Alice has two T-shirts
    and a pair of jeans in her cart; in one batch a jacket is added and
    the order placed. The order holds the three items of the old cart,
    and the render that follows empties the cart, jacket included. *)
Lemma same_batch_addition_is_lost :
  let batch := [Sample.add_to_cart (Some "Classic Black Jacket") None;
                Sample.place_order] in
  let handled :=
    LiveSupport.onmessage_toolCall Sample.env (InStore 1) batch Sample.alice_live in
  List.map (λ o, List.map productId (o_items o))
    (take 1 (mockData.getCustomerOrders
               (App.CUSTOMERS (LiveSupport.app handled.2)) "C1"))
  = [["P1000"; "P1001"]]
  ∧ React.current (App.cart (LiveSupport.app (LiveSupport.commit handled.2))) = [].
Proof. vm_compute. done. Qed.

Section Dispatching.
Import LiveSupport.
Variables (env : Env) (sessionUser : UserRef).

Lemma dispatch_completes fc l :
  LiveSupport.carries_productName fc → ∃ result l', dispatch env sessionUser fc l = Normal (result, l').
Proof.
  intros Hfc. unfold dispatch.
  repeat case_bool_decide; try by eauto.
  destruct (Hfc ltac:(done)) as [name ->]. simpl. destruct (List.find _ _); eauto.
Qed.

Lemma dispatch_all_completes calls : ∀ acc l,
  Forall LiveSupport.carries_productName calls →
  ∃ responses l',
    dispatch_all env sessionUser calls acc l = (Normal (acc ++ responses), l')
    ∧ List.map fr_id responses = List.map fc_id calls
    ∧ List.map fr_name responses = List.map fc_name calls.
Proof.
  induction calls as [|fc calls IH]; intros acc l Hcalls.
  - exists [], l. by rewrite app_nil_r.
  - apply Forall_cons in Hcalls as [Hfc Hcalls]. simpl.
    destruct (dispatch_completes fc l Hfc) as (result & l1 & ->).
    destruct (IH (acc ++ [mkResponse (fc_id fc) (fc_name fc) result]) l1 Hcalls)
      as (responses & l' & -> & Hids & Hnames).
    exists (mkResponse (fc_id fc) (fc_name fc) result :: responses), l'.
    rewrite <- app_assoc. simpl. by rewrite Hids, Hnames.
Qed.

Lemma find_product_none name :
  (∀ p, p ∈ PRODUCTS env →
     JS.includes (JS.toLowerCase (p_name p)) (JS.toLowerCase name) = false) →
  find_product (PRODUCTS env) (Some name) = Normal None.
Proof.
  intros Hnone. unfold find_product. f_equal.
  destruct (List.find _ _) eqn:Hfind; [|done].
  apply find_some in Hfind as [Hin Hmatch].
  apply list_elem_of_In, Hnone in Hin. congruence.
Qed.
End Dispatching.

(** Nothing is validated in the other branches either: [escalate_issue]
    declares [reason] as required, and a call without it is not refused
    but creates a ticket and reports success. *)
Lemma escalate_issue_without_reason_succeeds :
  LiveSupport.reason (LiveSupport.fc_args (Sample.escalate_issue None)) = None
  ∧ ∃ l',
      LiveSupport.dispatch Sample.env (InStore 0) (Sample.escalate_issue None)
        Sample.live0
      = LiveSupport.Normal
          (LiveSupport.TicketResult true "TKT-80042"
             "Escalation successful. Ticket ID: TKT-80042. Inform the user.", l').
Proof. split; [reflexivity|]. eexists. vm_compute. reflexivity. Qed.

Lemma add_to_cart_without_productName_throws :
  LiveSupport.onmessage_toolCall Sample.env (InStore 0)
    [Sample.add_to_cart None (Some 1)] Sample.live0
  = (LiveSupport.Throws
       "TypeError: Cannot read properties of undefined (reading 'toLowerCase')",
     Sample.live0).
Proof. reflexivity. Qed.

(** What the loop does when no call unwinds it. For every batch of parsed
    calls in which each [add_to_cart] carries a [productName], the loop
    ends normally with one result per call, in the order of the calls.
    An unknown tool name yields [{error: "Unknown tool"}]; an
    [add_to_cart] whose name matches no product yields the failure
    [{success: false, message}] and changes nothing; an [escalate_issue]
    yields a ticket and [success: true] whether it carries a reason or
    not. *)
Theorem dispatch_completes_without_validation (env : Env) (sessionUser : UserRef)
    (calls : list LiveSupport.FunctionCall) (l : LiveSupport.State) :
  Forall LiveSupport.carries_productName calls →
  (∃ responses l',
     LiveSupport.onmessage_toolCall env sessionUser calls l
     = (LiveSupport.Normal responses, l')
     ∧ List.map LiveSupport.fr_id responses = List.map LiveSupport.fc_id calls
     ∧ List.map LiveSupport.fr_name responses = List.map LiveSupport.fc_name calls)
  ∧ (∀ fc l0,
       LiveSupport.fc_name fc
       ∉ ["search_products"; "get_my_orders"; "add_to_cart"; "place_order";
          "escalate_issue"] →
       LiveSupport.dispatch env sessionUser fc l0
       = LiveSupport.Normal (LiveSupport.ErrorResult "Unknown tool", l0))
  ∧ (∀ fc l0 name,
       LiveSupport.fc_name fc = "add_to_cart" →
       LiveSupport.productName (LiveSupport.fc_args fc) = Some name →
       (∀ p, p ∈ PRODUCTS env →
          JS.includes (JS.toLowerCase (p_name p)) (JS.toLowerCase name) = false) →
       LiveSupport.dispatch env sessionUser fc l0
       = LiveSupport.Normal
           (LiveSupport.MessageResult false
              ("Product " +:+ JS.dquote +:+ name +:+ JS.dquote +:+ " not found."),
            l0))
  ∧ (∀ fc l0,
       LiveSupport.fc_name fc = "escalate_issue" →
       ∃ ticketId message l',
         LiveSupport.dispatch env sessionUser fc l0
         = LiveSupport.Normal (LiveSupport.TicketResult true ticketId message, l')).
Proof.
  intros Hcalls. split_and!.
  - destruct (dispatch_all_completes env sessionUser calls [] l Hcalls)
      as (responses & l' & H & Hids & Hnames).
    by exists responses, l'.
  - intros fc l0. apply dispatch_unknown.
  - intros fc l0 name Hname Hproduct Hnone.
    rewrite dispatch_add_to_cart by done.
    rewrite Hproduct, find_product_none by done. reflexivity.
  - intros fc l0 Hname. rewrite dispatch_escalate_issue by done. eauto.
Qed.

Lemma dispatch_completes_without_validation_witness :
  ∃ responses l',
    LiveSupport.onmessage_toolCall Sample.env (InStore 0) Sample.mixed_batch Sample.live0
    = (LiveSupport.Normal responses, l')
    ∧ List.map LiveSupport.fr_id responses = List.map LiveSupport.fc_id Sample.mixed_batch
    ∧ List.map LiveSupport.fr_name responses
      = List.map LiveSupport.fc_name Sample.mixed_batch.
Proof.
  refine (proj1 (dispatch_completes_without_validation Sample.env (InStore 0)
                   Sample.mixed_batch Sample.live0 _)).
  repeat constructor; intros H; try discriminate H. by eexists.
Defined.

Section Unwinding.
Import LiveSupport.
Variables (env : Env) (sessionUser : UserRef).

Lemma dispatch_add_to_cart_undefined fc l :
  PRODUCTS env ≠ [] →
  fc_name fc = "add_to_cart" →
  productName (fc_args fc) = None →
  dispatch env sessionUser fc l
  = Throws "TypeError: Cannot read properties of undefined (reading 'toLowerCase')".
Proof.
  intros Hproducts Hname Hundefined.
  rewrite dispatch_add_to_cart by done. rewrite Hundefined.
  unfold find_product. by destruct (PRODUCTS env).
Qed.

Lemma dispatch_all_stops_at_throw fc rest e before : ∀ acc l,
  Forall carries_productName before →
  (∀ l0, dispatch env sessionUser fc l0 = Throws e) →
  ∃ responses l',
    dispatch_all env sessionUser before acc l = (Normal (acc ++ responses), l')
    ∧ length responses = length before
    ∧ dispatch_all env sessionUser (before ++ fc :: rest) acc l = (Throws e, l').
Proof.
  induction before as [|x before IH]; intros acc l Hbefore Hthrow.
  - exists [], l. rewrite app_nil_r. split_and!; [done..|].
    change (dispatch_all env sessionUser (fc :: rest) acc l = (Throws e, l)).
    cbn [dispatch_all]. by rewrite Hthrow.
  - apply Forall_cons in Hbefore as [Hx Hbefore].
    destruct (dispatch_completes env sessionUser x l Hx) as (result & l1 & Hdispatch).
    destruct (IH (acc ++ [mkResponse (fc_id x) (fc_name x) result]) l1 Hbefore Hthrow)
      as (responses & l' & Hall & Hlen & Hstop).
    exists (mkResponse (fc_id x) (fc_name x) result :: responses), l'.
    change ((x :: before) ++ fc :: rest) with (x :: (before ++ fc :: rest)).
    cbn [dispatch_all]. rewrite Hdispatch, Hall, Hstop, <- app_assoc.
    split_and!; [done| |done]. simpl. by rewrite Hlen.
Qed.
End Unwinding.

(** C4 fails on the code. No branch of the loop looks whether the
    arguments that the tool declarations require are there, and the
    claim's own example unwinds the handler. Let the catalogue have a
    product and a batch hold an [add_to_cart] without [productName], after
    calls that complete. The callback of [PRODUCTS.find] evaluates
    [productName.toLowerCase()] on [undefined] and throws a TypeError:
    the loop is left at that call, with the state as the earlier calls
    have made it, the results of the earlier calls are dropped with it,
    the calls after it are not looked at, and nothing is handed to
    [session.sendToolResponse], whether a session is active or not. No
    structured failure reaches the model. The branch returns one,
    [{success: false, message}], for a name that matches no product. *)
Theorem add_to_cart_without_productName_unwinds_the_handler (env : Env)
    (sessionUser : UserRef) (before rest : list LiveSupport.FunctionCall)
    (fc : LiveSupport.FunctionCall) (l : LiveSupport.State) (activeSession : bool) :
  PRODUCTS env ≠ [] →
  Forall LiveSupport.carries_productName before →
  LiveSupport.fc_name fc = "add_to_cart" →
  LiveSupport.productName (LiveSupport.fc_args fc) = None →
  let handled := LiveSupport.onmessage_toolCall env sessionUser (before ++ fc :: rest) l in
  ∃ responses l',
    LiveSupport.onmessage_toolCall env sessionUser before l
    = (LiveSupport.Normal responses, l')
    ∧ length responses = length before
    ∧ handled
      = (LiveSupport.Throws
           "TypeError: Cannot read properties of undefined (reading 'toLowerCase')",
         l')
    ∧ LiveSupport.sendToolResponse activeSession handled.1 = None
    ∧ ∀ name,
        (∀ p, p ∈ PRODUCTS env →
           JS.includes (JS.toLowerCase (p_name p)) (JS.toLowerCase name) = false) →
        ∀ named,
          LiveSupport.fc_name named = "add_to_cart" →
          LiveSupport.productName (LiveSupport.fc_args named) = Some name →
          LiveSupport.dispatch env sessionUser named l'
          = LiveSupport.Normal
              (LiveSupport.MessageResult false
                 ("Product " +:+ JS.dquote +:+ name +:+ JS.dquote +:+ " not found."),
               l').
Proof.
  intros Hproducts Hbefore Hname Hundefined handled.
  destruct (dispatch_all_stops_at_throw env sessionUser fc rest
              "TypeError: Cannot read properties of undefined (reading 'toLowerCase')"
              before [] l Hbefore)
    as (responses & l' & Hall & Hlen & Hstop).
  { intros l0. by apply dispatch_add_to_cart_undefined. }
  exists responses, l'. subst handled. unfold LiveSupport.onmessage_toolCall.
  rewrite Hstop. split_and!; [exact Hall|exact Hlen|reflexivity|reflexivity|].
  intros name Hnone named Hnamed Hproduct.
  rewrite dispatch_add_to_cart by done.
  rewrite Hproduct, find_product_none by done. reflexivity.
Qed.

Lemma add_to_cart_without_productName_unwinds_the_handler_witness :
  LiveSupport.onmessage_toolCall Sample.env (InStore 0)
    [Sample.get_my_orders; Sample.add_to_cart None None; Sample.place_order]
    Sample.live0
  = (LiveSupport.Throws
       "TypeError: Cannot read properties of undefined (reading 'toLowerCase')",
     Sample.live0)
  ∧ LiveSupport.sendToolResponse true
      (LiveSupport.onmessage_toolCall Sample.env (InStore 0)
         [Sample.get_my_orders; Sample.add_to_cart None None; Sample.place_order]
         Sample.live0).1
    = None.
Proof.
  destruct (add_to_cart_without_productName_unwinds_the_handler Sample.env (InStore 0)
              [Sample.get_my_orders] [Sample.place_order]
              (Sample.add_to_cart None None) Sample.live0 true)
    as (responses & l' & Hbefore & _ & Hthrown & Hsent & _).
  - vm_compute. discriminate.
  - repeat constructor. intros H. discriminate H.
  - reflexivity.
  - reflexivity.
  - injection Hbefore as _ <-. split; [exact Hthrown|exact Hsent].
Defined.

Section Playback.
Import LiveSupport.

Lemma schedule_started now d pb :
  started (schedule now (Some d) pb)
  = started pb ++ [(created pb, Qmax (nextStartTime pb) now, d)].
Proof. reflexivity. Qed.




End Playback.



(** The scenario of the specification: two scheduled fragments, an
    interruption at 1.25 s, a new fragment at 1.5 s. *)
Lemma barge_in_scenario :
  let cut :=
    LiveSupport.onmessage_serverContent (Some (5 # 4)) (λ _, Some (1 # 2))
      (LiveSupport.mkContent None true) Sample.two_scheduled in
  let next :=
    LiveSupport.onmessage_serverContent (Some (3 # 2)) (λ _, Some (1 # 2))
      (LiveSupport.mkContent (Some "UklGRg==") false) cut in
  LiveSupport.sources Sample.two_scheduled = [0; 1]%nat
  ∧ LiveSupport.stopped cut = [0; 1]%nat
  ∧ LiveSupport.sources cut = []
  ∧ LiveSupport.started next
    = [(0%nat, 1%Q, 1 # 2); (1%nat, 3 # 2, 1 # 4); (2%nat, 3 # 2, 1 # 2)].
Proof. vm_compute. done. Qed.

(** * More of the code *)

(** X1. The quantities of the cart stay at 1 or more: when every
    addition of a run of cart operations is of at least one unit, a cart
    whose quantities are all at least 1 is still one after the run and
    its render. [updateCartItemQuantity] takes part in this by refusing
    any quantity below 1. *)
Theorem cart_quantities_stay_positive (env : Env) (events : list Run.Event)
    (s : App.State) :
  Forall Run.adds_positive events →
  Run.quantities_positive (React.next (App.cart s)) →
  Run.quantities_positive
    (React.current (App.cart (App.render (Run.run env events s)))).
Proof.
  intros Hevents Hs.
  change (Run.quantities_positive (React.next (App.cart (Run.run env events s)))).
  by apply run_keeps_quantities_positive.
Qed.

Lemma cart_quantities_stay_positive_witness :
  Run.quantities_positive
    (React.current
       (App.cart
          (App.render
             (Run.run Sample.env
                [Run.Add Sample.jeans 2; Run.Update "P1000" 0; Run.Update "P1001" 4;
                 Run.Remove "P1000"; Run.Render; Run.Add Sample.jeans 1]
                Sample.alice_shopping)))).
Proof.
  apply (cart_quantities_stay_positive Sample.env
           [Run.Add Sample.jeans 2; Run.Update "P1000" 0; Run.Update "P1001" 4;
            Run.Remove "P1000"; Run.Render; Run.Add Sample.jeans 1]
           Sample.alice_shopping).
  - repeat constructor; simpl; lia.
  - vm_compute. repeat constructor; discriminate.
Defined.

(** X8. An addition is ordered in a later turn. When an [add_to_cart]
    call has succeeded, the cart to come is the cart with the product
    found added to it. A [place_order] that arrives in a later message,
    after React has rendered and the effect has refreshed the
    references, succeeds: the order whose id it reports has exactly the
    lines of that cart as its items, the product added among them, and
    the sum of price times quantity over that cart as its total; it is
    the order put in front of the orders of the active customer, and the
    cart to come is empty. *)
Theorem addition_is_ordered_in_a_later_turn (env : Env) (sessionUser : UserRef)
    (add place : LiveSupport.FunctionCall) (l l1 : LiveSupport.State)
    (message : string) :
  LiveSupport.fc_name add = "add_to_cart" →
  LiveSupport.fc_name place = "place_order" →
  LiveSupport.dispatch env sessionUser add l
  = LiveSupport.Normal (LiveSupport.MessageResult true message, l1) →
  let cart := React.next (App.cart (LiveSupport.app l1)) in
  let user :=
    App.deref (App.CUSTOMERS (LiveSupport.app l1))
      (React.next (App.currentUser (LiveSupport.app l1))) in
  ∃ foundProduct order l2,
    LiveSupport.find_product (PRODUCTS env)
      (LiveSupport.productName (LiveSupport.fc_args add))
    = LiveSupport.Normal (Some foundProduct)
    ∧ cart
      = App.addToCart_update foundProduct
          (JS.or_number (LiveSupport.a_quantity (LiveSupport.fc_args add)) 1)
          (React.next (App.cart (LiveSupport.app l)))
    ∧ LiveSupport.later_turn env sessionUser [place] l1
      = (LiveSupport.Normal
           [LiveSupport.mkResponse (LiveSupport.fc_id place) "place_order"
              (LiveSupport.OrderResult true (o_id order)
                 ("Order placed successfully. Order ID: " +:+ o_id order
                  +:+ ". You MUST tell the user this ID."))],
         l2)
    ∧ o_items order
      = List.map (λ item, mkOrderItem (p_id (product item)) (quantity item)) cart
    ∧ o_total order
      = Run.sum (List.map (λ item, p_price (product item) * quantity item) cart)
    ∧ p_id foundProduct ∈ List.map productId (o_items order)
    ∧ React.next (App.currentUser (LiveSupport.app l2))
      = Detached (with_orders user (order :: orders user))
    ∧ React.next (App.cart (LiveSupport.app l2)) = [].
Proof.
  intros Hadd Hplace Hdispatch cart user.
  rewrite dispatch_add_to_cart in Hdispatch by done.
  destruct (LiveSupport.find_product _ _) as [[foundProduct|]|] eqn:Hfind;
    [|discriminate Hdispatch..].
  injection Hdispatch as _ <-.
  set (qty := JS.or_number _ _) in *.
  set (l1 := LiveSupport.set_app (App.addToCart foundProduct qty (LiveSupport.app l)) l)
    in *.
  assert (Hcart : cart
                  = App.addToCart_update foundProduct qty
                      (React.next (App.cart (LiveSupport.app l)))).
  { subst cart l1. cbn. unfold React.next. cbn. by rewrite fold_left_app. }
  assert (Href : LiveSupport.cartRef (LiveSupport.commit l1) = cart) by reflexivity.
  assert (Hclosure : LiveSupport.placeOrderRef (LiveSupport.commit l1)
                     = App.mkClosure cart
                         (React.next (App.currentUser (LiveSupport.app l1))))
    by reflexivity.
  exists foundProduct.
  exists (App.newOrder_of env (LiveSupport.placeOrderRef (LiveSupport.commit l1))
            (LiveSupport.app (LiveSupport.commit l1))).
  eexists. split_and!.
  - reflexivity.
  - exact Hcart.
  - unfold LiveSupport.later_turn, LiveSupport.onmessage_toolCall.
    cbn [LiveSupport.dispatch_all].
    rewrite dispatch_place_order by done.
    rewrite bool_decide_eq_false_2.
    + cbn [app]. rewrite Hplace. reflexivity.
    + rewrite Href, Hcart. intros Hlen. apply nil_length_inv in Hlen.
      by apply addToCart_update_not_empty in Hlen.
  - rewrite Hclosure. reflexivity.
  - rewrite Hclosure. cbn [App.newOrder_of o_total App.cl_cart]. apply cart_total_sum.
  - rewrite Hclosure. cbn [App.newOrder_of o_items App.cl_cart].
    rewrite List.map_map. cbn [productId]. rewrite Hcart.
    apply addToCart_update_has_product.
  - cbn [LiveSupport.set_app LiveSupport.app App.handleCheckout snd App.currentUser].
    rewrite next_setValue. rewrite Hclosure. reflexivity.
  - cbn [LiveSupport.set_app LiveSupport.app App.handleCheckout snd App.cart].
    apply next_setValue.
Qed.

Lemma addition_is_ordered_in_a_later_turn_witness :
  ∃ order l2,
    LiveSupport.later_turn Sample.env (InStore 0) [Sample.place_order]
      (LiveSupport.set_app
         (App.addToCart Sample.tshirt 1 (LiveSupport.app Sample.live0)) Sample.live0)
    = (LiveSupport.Normal
         [LiveSupport.mkResponse "call-1" "place_order"
            (LiveSupport.OrderResult true (o_id order)
               ("Order placed successfully. Order ID: " +:+ o_id order
                +:+ ". You MUST tell the user this ID."))],
       l2)
    ∧ o_items order = [mkOrderItem "P1000" 1]
    ∧ o_total order = 20
    ∧ React.next (App.currentUser (LiveSupport.app l2))
      = Detached
          (with_orders (App.deref Sample.customers (InStore 0))
             (order :: orders (App.deref Sample.customers (InStore 0)))).
Proof.
  destruct (addition_is_ordered_in_a_later_turn Sample.env (InStore 0)
              (Sample.add_to_cart (Some "red t-shirt") None) Sample.place_order
              Sample.live0
              (LiveSupport.set_app
                 (App.addToCart Sample.tshirt 1 (LiveSupport.app Sample.live0))
                 Sample.live0)
              "Added 1 x Vintage Red T-Shirt to cart. Total: $20. [SYSTEM HINT: The user bought T-Shirt. Suggest Jeans.]")
    as (foundProduct & order & l2 & _ & _ & Hlater & Hitems & Htotal & _ & Huser & _).
  - reflexivity.
  - reflexivity.
  - vm_compute. reflexivity.
  - exists order, l2. split_and!.
    + exact Hlater.
    + rewrite Hitems. vm_compute. reflexivity.
    + rewrite Htotal. vm_compute. reflexivity.
    + exact Huser.
Defined.

Section CartInvariants.
Import React App Run.

Lemma update_ids productId newQuantity c :
  ids (updateCartItemQuantity_update productId newQuantity c) = ids c.
Proof.
  unfold ids, updateCartItemQuantity_update. rewrite List.map_map.
  apply List.map_ext. intros item. by case_bool_decide.
Qed.

Lemma remove_ids productId c :
  ids (removeFromCart_update productId c)
  = List.filter (λ id, negb (bool_decide (id = productId))) (ids c).
Proof.
  unfold ids, removeFromCart_update. induction c as [|item c IH]; [done|].
  simpl. destruct (bool_decide _); simpl; by rewrite IH.
Qed.

Lemma NoDup_list_filter (f : string → bool) (l : list string) :
  NoDup l → NoDup (List.filter f l).
Proof.
  intros Hl. exact (sublist_NoDup _ l Hl (filter_sublist f l)).
Qed.

Lemma step_keeps_ids_unique env e s :
  NoDup (ids (next (cart s))) → NoDup (ids (next (cart (step env e s)))).
Proof.
  intros Hs. destruct e as [prod qty|productId q|productId| | |]; cbn [step].
  - rewrite next_cart_addToCart. by apply addToCart_update_NoDup.
  - unfold updateCartItemQuantity. destruct (q <? 1); [done|].
    cbn [set_cart cart]. by rewrite next_setState, update_ids.
  - cbn [removeFromCart set_cart cart]. rewrite next_setState, remove_ids.
    by apply NoDup_list_filter.
  - cbn [clearCart set_cart cart]. rewrite next_setValue. constructor.
  - cbn [handleCheckout snd cart]. rewrite next_setValue. constructor.
  - done.
Qed.
End CartInvariants.

(** X2. The ids of the cart stay unique: whatever the cart operations and
    renders of a run, a cart whose entries have distinct product ids is
    still one after it. *)
Theorem run_keeps_ids_unique (env : Env) (events : list Run.Event) (s : App.State) :
  NoDup (Run.ids (React.next (App.cart s))) →
  NoDup (Run.ids (React.next (App.cart (Run.run env events s)))).
Proof.
  revert s. induction events as [|e events IH]; intros s Hs; [done|].
  rewrite run_cons. by apply IH, step_keeps_ids_unique.
Qed.

Lemma run_keeps_ids_unique_witness :
  NoDup
    (Run.ids
       (React.next
          (App.cart
             (Run.run Sample.env
                [Run.Add Sample.jeans 2; Run.Add Sample.tshirt 1; Run.Remove "P1000";
                 Run.Add Sample.tshirt 1; Run.Checkout; Run.Add Sample.jeans 1]
                Sample.alice_shopping)))).
Proof.
  apply (run_keeps_ids_unique Sample.env
           [Run.Add Sample.jeans 2; Run.Add Sample.tshirt 1; Run.Remove "P1000";
            Run.Add Sample.tshirt 1; Run.Checkout; Run.Add Sample.jeans 1]
           Sample.alice_shopping).
  apply (bool_decide_unpack _). vm_compute. reflexivity.
Defined.

Section RemoveUpdate.
Import React App Run.

Lemma filter_other_ids (id : string) (c : list CartItem) :
  id ∉ ids c →
  List.filter (λ item, negb (bool_decide (p_id (product item) = id))) c = c.
Proof.
  induction c as [|item c IH]; simpl; [done|]. intros Hid.
  apply not_elem_of_cons in Hid as [Hne Hid].
  rewrite bool_decide_eq_false_2 by done. simpl. by rewrite IH.
Qed.
End RemoveUpdate.

(** X3. [removeFromCart], once rendered, leaves no entry with the product
    id; the entries of other products are kept, in their order; for an id
    that is not in the cart the cart is unchanged. *)
Theorem removeFromCart_removes_only_that_product (productId : string) (s : App.State) :
  let before := React.next (App.cart s) in
  let after := React.current (App.cart (App.render (App.removeFromCart productId s))) in
  (productId ∉ Run.ids after)
  ∧ (after `sublist_of` before)
  ∧ (∀ item, item ∈ before → p_id (product item) ≠ productId → item ∈ after)
  ∧ (productId ∉ Run.ids before → after = before).
Proof.
  intros before after.
  assert (Hafter : after = App.removeFromCart_update productId before).
  { unfold after. cbn. unfold React.next. cbn. by rewrite fold_left_app. }
  rewrite Hafter. unfold App.removeFromCart_update. split_and!.
  - intros Hin. apply list_elem_of_fmap in Hin as (item & Hid & Hitem).
    apply list_elem_of_In, filter_In in Hitem as [_ Hkeep].
    rewrite bool_decide_eq_true_2 in Hkeep by done. discriminate Hkeep.
  - apply filter_sublist.
  - intros item Hitem Hne. apply list_elem_of_In, filter_In. split.
    + by apply list_elem_of_In.
    + by rewrite bool_decide_eq_false_2.
  - apply filter_other_ids.
Qed.

Section UpdateQuantity.
Import React App Run.

Lemma update_other_entries productId q c :
  List.filter (λ item, negb (bool_decide (p_id (product item) = productId)))
    (updateCartItemQuantity_update productId q c)
  = List.filter (λ item, negb (bool_decide (p_id (product item) = productId))) c.
Proof.
  unfold updateCartItemQuantity_update. induction c as [|item c IH]; [done|].
  cbn [List.map List.filter].
  destruct (decide (p_id (product item) = productId)) as [Hid|Hid].
  - rewrite !(bool_decide_eq_true_2 _ Hid). simpl.
    rewrite ?(bool_decide_eq_true_2 _ Hid). simpl. exact IH.
  - rewrite !(bool_decide_eq_false_2 _ Hid). simpl.
    rewrite ?(bool_decide_eq_false_2 _ Hid). simpl. by rewrite IH.
Qed.

Lemma update_sets_quantity productId q c item :
  item ∈ updateCartItemQuantity_update productId q c →
  p_id (product item) = productId → quantity item = q.
Proof.
  unfold updateCartItemQuantity_update. intros Hitem Hid.
  apply list_elem_of_In, in_map_iff in Hitem as (x & <- & _).
  case_bool_decide; [done|]. simpl in Hid. congruence.
Qed.

Lemma update_absent productId q c :
  productId ∉ ids c → updateCartItemQuantity_update productId q c = c.
Proof. apply map_absent. Qed.

(** With unique ids, giving an entry the quantity it has changes nothing. *)
Lemma update_same_quantity c item :
  item ∈ c → NoDup (ids c) →
  updateCartItemQuantity_update (p_id (product item)) (quantity item) c = c.
Proof.
  unfold updateCartItemQuantity_update.
  induction c as [|x c IH]; intros Hitem Hnd; [done|].
  simpl in Hnd. apply NoDup_cons in Hnd as [Hx Hnd]. simpl.
  apply elem_of_cons in Hitem as [->|Hitem].
  - rewrite bool_decide_eq_true_2 by done.
    f_equal; [by destruct x|]. by apply map_absent.
  - rewrite bool_decide_eq_false_2.
    + f_equal. by apply IH.
    + intros Heq. apply Hx. rewrite Heq. apply list_elem_of_fmap. by exists item.
Qed.

Lemma update_twice productId q q' c :
  updateCartItemQuantity_update productId q' (updateCartItemQuantity_update productId q c)
  = updateCartItemQuantity_update productId q' c.
Proof.
  unfold updateCartItemQuantity_update. rewrite List.map_map.
  apply List.map_ext. intros item.
  cbv beta.
  destruct (decide (p_id (product item) = productId)) as [Hid|Hid].
  - rewrite (bool_decide_eq_true_2 _ Hid). simpl.
    by rewrite (bool_decide_eq_true_2 _ Hid).
  - by rewrite !(bool_decide_eq_false_2 _ Hid).
Qed.

Lemma next_cart_update productId q s :
  1 ≤ q →
  next (cart (updateCartItemQuantity productId q s))
  = updateCartItemQuantity_update productId q (next (cart s)).
Proof.
  intros Hq. unfold updateCartItemQuantity.
  rewrite (proj2 (Z.ltb_ge _ _) Hq). cbn [set_cart cart]. apply next_setState.
Qed.
End UpdateQuantity.

(** X4. [updateCartItemQuantity] with a quantity of at least 1, once
    rendered, gives that quantity to every entry with the product id and
    keeps the ids of the cart and the entries of other products as they
    are; for an id that is not in the cart the cart is unchanged. *)
Theorem updateCartItemQuantity_replaces_quantity (productId : string)
    (newQuantity : Z) (s : App.State) :
  1 ≤ newQuantity →
  let before := React.next (App.cart s) in
  let after :=
    React.current
      (App.cart (App.render (App.updateCartItemQuantity productId newQuantity s))) in
  Run.ids after = Run.ids before
  ∧ (∀ item, item ∈ after → p_id (product item) = productId →
       quantity item = newQuantity)
  ∧ List.filter (λ item, negb (bool_decide (p_id (product item) = productId))) after
    = List.filter (λ item, negb (bool_decide (p_id (product item) = productId))) before
  ∧ (productId ∉ Run.ids before → after = before).
Proof.
  intros Hq before after.
  assert (Hafter : after = App.updateCartItemQuantity_update productId newQuantity before).
  { unfold after, before. rewrite <- (next_cart_update productId newQuantity s Hq).
    reflexivity. }
  rewrite Hafter. split_and!.
  - apply update_ids.
  - apply update_sets_quantity.
  - apply update_other_entries.
  - apply update_absent.
Qed.

Lemma updateCartItemQuantity_replaces_quantity_witness :
  Run.ids
    (React.current
       (App.cart (App.render (App.updateCartItemQuantity "P1000" 7 Sample.alice_shopping))))
  = Run.ids (React.next (App.cart Sample.alice_shopping)).
Proof.
  refine (proj1 (updateCartItemQuantity_replaces_quantity "P1000" 7
                   Sample.alice_shopping _)).
  lia.
Defined.

Section Badge.
Import React App Run.

Lemma count_from (c : list CartItem) : ∀ acc,
  fold_left (λ acc item, acc + quantity item) c acc
  = acc + sum (List.map quantity c).
Proof.
  induction c as [|item c IH]; intros acc; simpl; [lia|]. rewrite IH. lia.
Qed.

Lemma cartTotalItems_sum c : AppShell.cartTotalItems c = sum (List.map quantity c).
Proof. unfold AppShell.cartTotalItems. by rewrite count_from. Qed.

Lemma sum_app (a b : list Z) : sum (a ++ b) = sum a + sum b.
Proof. induction a as [|x a IH]; simpl; [done|]. rewrite IH. lia. Qed.

Lemma cartTotalItems_after_add prod qty c :
  NoDup (ids c) →
  AppShell.cartTotalItems (addToCart_update prod qty c)
  = AppShell.cartTotalItems c + qty.
Proof.
  intros Hnd. rewrite !cartTotalItems_sum.
  destruct (decide (p_id prod ∈ ids c)) as [Hin|Hout].
  - unfold addToCart_update. destruct (find_some_present _ _ Hin) as [x ->].
    clear x. induction c as [|item c IH]; [by apply elem_of_nil in Hin|].
    simpl in Hnd. apply NoDup_cons in Hnd as [Hitem Hnd]. simpl.
    case_bool_decide as Hid.
    + rewrite map_absent by (by rewrite <- Hid). simpl. lia.
    + apply elem_of_cons in Hin as [Hin|Hin]; [congruence|].
      rewrite IH by done. lia.
  - rewrite addToCart_update_absent by done.
    rewrite List.map_app, sum_app. simpl. lia.
Qed.
End Badge.

(** X5. In a cart with distinct product ids, [addToCart] of a quantity
    raises the count of the cart badge, [cartTotalItems], by exactly that
    quantity, whether the product was in the cart or not, and the cart
    drawer is open after the render. *)
Theorem addToCart_raises_badge_by_quantity (prod : Product) (qty : Z) (s : App.State) :
  NoDup (Run.ids (React.next (App.cart s))) →
  AppShell.cartTotalItems
    (React.current (App.cart (App.render (App.addToCart prod qty s))))
  = AppShell.cartTotalItems (React.next (App.cart s)) + qty
  ∧ React.current (App.isCartOpen (App.render (App.addToCart prod qty s))) = true.
Proof.
  intros Hnd. split.
  - rewrite <- (cartTotalItems_after_add prod qty _ Hnd).
    f_equal. apply next_cart_addToCart.
  - cbn. unfold React.next. cbn. by rewrite fold_left_app.
Qed.

Lemma addToCart_raises_badge_by_quantity_witness :
  AppShell.cartTotalItems
    (React.current (App.cart (App.render (App.addToCart Sample.jeans 4 Sample.alice_shopping))))
  = AppShell.cartTotalItems (React.next (App.cart Sample.alice_shopping)) + 4.
Proof.
  refine (proj1 (addToCart_raises_badge_by_quantity Sample.jeans 4
                   Sample.alice_shopping _)).
  apply (bool_decide_unpack _). vm_compute. reflexivity.
Defined.

Section OtherCustomers.
Import React App.

Lemma find_other_after_alter (uid : string) (f : Customer → Customer)
    (k : nat) (customers : list Customer) :
  (∀ c, c_id (f c) = c_id c) →
  (∀ c, customers !! k = Some c → c_id c ≠ uid) →
  List.find (λ c, bool_decide (c_id c = uid)) (alter f k customers)
  = List.find (λ c, bool_decide (c_id c = uid)) customers.
Proof.
  intros Hf. revert k. induction customers as [|x customers IH]; intros k Hk; [done|].
  destruct k as [|k]; simpl.
  - rewrite Hf. rewrite !bool_decide_eq_false_2; [done|by apply Hk..].
  - case_bool_decide; [done|]. apply IH. intros c Hc. by apply Hk.
Qed.

Lemma ids_after_alter (f : Customer → Customer) (k : nat) (customers : list Customer) :
  (∀ c, c_id (f c) = c_id c) →
  List.map c_id (alter f k customers) = List.map c_id customers.
Proof.
  intros Hf. revert k. induction customers as [|x customers IH]; intros k; [done|].
  destruct k as [|k]; simpl; [by rewrite Hf|]. f_equal. apply IH.
Qed.
End OtherCustomers.

(** X6. [handleCheckout] touches the history of the active customer
    only: [getCustomerOrders] of any other customer id gives what it
    gave before, and the ids of [CUSTOMERS] are the same, in the same
    order. *)
Theorem handleCheckout_leaves_other_customers (env : Env) (cl : App.Closure)
    (s : App.State) (customerId : string) :
  customerId ≠ c_id (App.deref (App.CUSTOMERS s) (App.cl_currentUser cl)) →
  let after := (App.handleCheckout env cl s).2 in
  mockData.getCustomerOrders (App.CUSTOMERS after) customerId
  = mockData.getCustomerOrders (App.CUSTOMERS s) customerId
  ∧ List.map c_id (App.CUSTOMERS after) = List.map c_id (App.CUSTOMERS s).
Proof.
  intros Hne after. unfold after. rewrite customers_after_checkout.
  destruct (list_find _ _) as [[k c]|] eqn:Hfind; [|done].
  apply list_find_Some in Hfind as (Hk & Hc & _). split.
  - unfold mockData.getCustomerOrders.
    rewrite find_other_after_alter; [done|done|].
    intros c' Hc'. rewrite Hk in Hc'. injection Hc' as <-. congruence.
  - by apply ids_after_alter.
Qed.

Lemma handleCheckout_leaves_other_customers_witness :
  mockData.getCustomerOrders
    (App.CUSTOMERS
       (App.handleCheckout Sample.env (App.closure_of Sample.alice_shopping)
          Sample.alice_shopping).2) "C3"
  = mockData.getCustomerOrders (App.CUSTOMERS Sample.alice_shopping) "C3".
Proof.
  refine (proj1 (handleCheckout_leaves_other_customers Sample.env
                   (App.closure_of Sample.alice_shopping) Sample.alice_shopping "C3" _)).
  vm_compute. discriminate.
Defined.

Section Switching.
Import React App.

Lemma history_after_switch (value : string) (s : State) (c : Customer) :
  c ∈ CUSTOMERS s → c_id c = value →
  history (render (switchUser value s)) = mockData.getCustomerOrders (CUSTOMERS s) value.
Proof.
  intros Hc Hid. unfold switchUser, mockData.getCustomerOrders.
  destruct (list_find _ _) as [[i x]|] eqn:Hfind.
  - unfold history. cbn. unfold next. cbn. rewrite fold_left_app. cbn.
    assert (Hx : List.find (λ c, bool_decide (c_id c = value)) (CUSTOMERS s) = Some x).
    { clear Hc Hid c. revert i Hfind.
      induction (CUSTOMERS s) as [|y l IH]; intros i Hfind; [done|].
      cbn in Hfind. simpl. destruct (decide (c_id y = value)) as [Hy|Hy].
      - rewrite (bool_decide_eq_true_2 _ Hy). congruence.
      - rewrite (bool_decide_eq_false_2 _ Hy).
        destruct (list_find _ l) as [[j z]|] eqn:Hl; [|done].
        cbn in Hfind. injection Hfind as _ <-. by apply (IH j). }
    rewrite Hx. apply list_find_Some in Hfind as (-> & _). done.
  - apply list_find_None in Hfind. rewrite Forall_forall in Hfind.
    by destruct (Hfind c Hc).
Qed.

Lemma switchUser_customers value s : CUSTOMERS (render (switchUser value s)) = CUSTOMERS s.
Proof. unfold switchUser. by destruct (list_find _ _) as [[i x]|]. Qed.
End Switching.

(** X7. An order outlives a change of user. When the active customer, who
    is in [CUSTOMERS], checks out, the user is switched to any other
    value and then back, the history shown is the new order followed by
    what [getCustomerOrders] gave for the customer before. *)
Theorem orders_persist_across_user_switch (env : Env) (s : App.State)
    (c : Customer) (other : string) :
  let active := c_id (App.deref (App.CUSTOMERS s) (React.current (App.currentUser s))) in
  c ∈ App.CUSTOMERS s → c_id c = active →
  let ordered := App.checkout env s in
  let away := App.render (App.switchUser other ordered.2) in
  let back := App.render (App.switchUser active away) in
  ∃ newOrder,
    o_id newOrder = ordered.1
    ∧ App.history back
      = newOrder :: mockData.getCustomerOrders (App.CUSTOMERS s) active.
Proof.
  intros active Hc Hid ordered away back.
  exists (App.newOrder_of env (App.closure_of s) s). split; [done|].
  assert (Hcust : App.CUSTOMERS away
                  = App.CUSTOMERS (App.handleCheckout env (App.closure_of s) s).2).
  { unfold away. by rewrite switchUser_customers. }
  assert (Hfound : is_Some (List.find (λ x, bool_decide (c_id x = active))
                              (App.CUSTOMERS away))).
  { rewrite Hcust, customers_after_checkout.
    rewrite (find_after_prepend active) by done.
    destruct (find_member active (App.CUSTOMERS s) c Hc Hid) as [x ->]. by eexists. }
  destruct Hfound as [x Hx]. pose proof Hx as Hx'.
  apply find_some in Hx' as [Hin Hidx]. apply bool_decide_eq_true_1 in Hidx.
  unfold back. rewrite (history_after_switch active away x); [|by apply list_elem_of_In|done].
  rewrite Hcust. by apply (getCustomerOrders_after_checkout env (App.closure_of s) s c).
Qed.

Lemma orders_persist_across_user_switch_witness :
  ∃ newOrder,
    o_id newOrder = (App.checkout Sample.env Sample.alice_shopping).1
    ∧ App.history
        (App.render
           (App.switchUser "C1"
              (App.render
                 (App.switchUser "C2" (App.checkout Sample.env Sample.alice_shopping).2))))
      = newOrder :: mockData.getCustomerOrders (App.CUSTOMERS Sample.alice_shopping) "C1".
Proof.
  apply (orders_persist_across_user_switch Sample.env Sample.alice_shopping
           (App.deref Sample.customers (InStore 1)) "C2").
  - apply list_elem_of_lookup. by exists 1%nat.
  - reflexivity.
Defined.


Section ReadOnly.
Import LiveSupport.
Variables (env : Env) (sessionUser : UserRef).

Lemma dispatch_read_only fc l :
  Batch.read_only fc → ∃ result, dispatch env sessionUser fc l = Normal (result, l).
Proof.
  intros Hfc. unfold dispatch.
  repeat case_bool_decide; try by eauto.
  all: exfalso; apply Hfc.
  all: match goal with H : fc_name _ = _ |- _ => rewrite H end.
  all: repeat constructor.
Qed.

Lemma dispatch_all_read_only calls : ∀ acc l,
  Forall Batch.read_only calls →
  ∃ responses,
    dispatch_all env sessionUser calls acc l = (Normal (acc ++ responses), l)
    ∧ length responses = length calls.
Proof.
  induction calls as [|fc calls IH]; intros acc l Hcalls.
  - exists []. by rewrite app_nil_r.
  - apply Forall_cons in Hcalls as [Hfc Hcalls]. simpl.
    destruct (dispatch_read_only fc l Hfc) as (result & ->).
    destruct (IH (acc ++ [mkResponse (fc_id fc) (fc_name fc) result]) l Hcalls)
      as (responses & -> & Hlen).
    exists (mkResponse (fc_id fc) (fc_name fc) result :: responses).
    rewrite <- app_assoc. simpl. by rewrite Hlen.
Qed.
End ReadOnly.

(** X9. A batch of lookups changes nothing: when no call of a batch is
    [add_to_cart], [place_order] or [escalate_issue], the loop answers
    every call and leaves the state as it was. *)
Theorem lookups_leave_the_state_alone (env : Env) (sessionUser : UserRef)
    (calls : list LiveSupport.FunctionCall) (l : LiveSupport.State) :
  Forall Batch.read_only calls →
  ∃ responses,
    LiveSupport.onmessage_toolCall env sessionUser calls l
    = (LiveSupport.Normal responses, l)
    ∧ length responses = length calls.
Proof.
  intros Hcalls.
  destruct (dispatch_all_read_only env sessionUser calls [] l Hcalls)
    as (responses & H & Hlen).
  by exists responses.
Qed.

Lemma lookups_leave_the_state_alone_witness :
  ∃ responses,
    LiveSupport.onmessage_toolCall Sample.env (InStore 1)
      [Sample.get_my_orders;
       Sample.call "search_products"
         (LiveSupport.mkArgs (Some "jeans") (Some "clothing") None None None);
       Sample.call "cancel_order" LiveSupport.no_args]
      Sample.alice_live
    = (LiveSupport.Normal responses, Sample.alice_live)
    ∧ length responses = 3%nat.
Proof.
  apply (lookups_leave_the_state_alone Sample.env (InStore 1)
           [Sample.get_my_orders;
            Sample.call "search_products"
              (LiveSupport.mkArgs (Some "jeans") (Some "clothing") None None None);
            Sample.call "cancel_order" LiveSupport.no_args]
           Sample.alice_live).
  repeat constructor; apply (bool_decide_unpack _); vm_compute; reflexivity.
Defined.

(** X10. Two [place_order] calls in one batch order the same cart twice.
    With a cart that is not empty and the active customer in
    [CUSTOMERS], both calls succeed; each of the two orders has the
    lines of the cart of the last render as its items and the sum of
    price times quantity over that cart as its total, and both are put
    in front of the customer's history in [CUSTOMERS]. *)
Theorem two_place_orders_in_a_batch_order_twice (env : Env) (sessionUser : UserRef)
    (first second : LiveSupport.FunctionCall) (l : LiveSupport.State) (c : Customer) :
  LiveSupport.fc_name first = "place_order" →
  LiveSupport.fc_name second = "place_order" →
  LiveSupport.cartRef l ≠ [] →
  let customers := App.CUSTOMERS (LiveSupport.app l) in
  let cl := LiveSupport.placeOrderRef l in
  let active := c_id (App.deref customers (App.cl_currentUser cl)) in
  c ∈ customers → c_id c = active →
  ∃ order1 order2 message1 message2 l2,
    LiveSupport.onmessage_toolCall env sessionUser [first; second] l
    = (LiveSupport.Normal
         [LiveSupport.mkResponse (LiveSupport.fc_id first) "place_order"
            (LiveSupport.OrderResult true (o_id order1) message1);
          LiveSupport.mkResponse (LiveSupport.fc_id second) "place_order"
            (LiveSupport.OrderResult true (o_id order2) message2)],
       l2)
    ∧ o_items order1
      = List.map (λ item, mkOrderItem (p_id (product item)) (quantity item))
          (App.cl_cart cl)
    ∧ o_items order2 = o_items order1
    ∧ o_total order1
      = Run.sum (List.map (λ item, p_price (product item) * quantity item)
                   (App.cl_cart cl))
    ∧ o_total order2 = o_total order1
    ∧ mockData.getCustomerOrders (App.CUSTOMERS (LiveSupport.app l2)) active
      = order2 :: order1 :: mockData.getCustomerOrders customers active.
Proof.
  intros Hfirst Hsecond Hcart customers cl active Hc Hid.
  subst customers active.
  set (a := LiveSupport.app l) in *.
  set (a1 := (App.handleCheckout env cl a).2).
  set (l1 := LiveSupport.set_app a1 l).
  assert (Hnonempty : ∀ l0, LiveSupport.cartRef l0 = LiveSupport.cartRef l →
            bool_decide (length (LiveSupport.cartRef l0) = 0%nat) = false).
  { intros l0 ->. apply bool_decide_eq_false_2. by destruct (LiveSupport.cartRef l). }
  exists (App.newOrder_of env cl a), (App.newOrder_of env cl a1).
  do 2 eexists. exists (LiveSupport.set_app (App.handleCheckout env cl a1).2 l1).
  split_and!.
  - unfold LiveSupport.onmessage_toolCall. cbn [LiveSupport.dispatch_all].
    rewrite dispatch_place_order by done. rewrite Hnonempty by done.
    rewrite dispatch_place_order by done. rewrite Hnonempty by done.
    cbn [app]. rewrite Hfirst, Hsecond. reflexivity.
  - reflexivity.
  - reflexivity.
  - apply cart_total_sum.
  - reflexivity.
  - cbn [LiveSupport.set_app LiveSupport.app].
    assert (Hid1 : c_id (App.deref (App.CUSTOMERS a1) (App.cl_currentUser cl))
                   = c_id (App.deref (App.CUSTOMERS a) (App.cl_currentUser cl)))
      by apply deref_id_after_checkout.
    assert (H1 : mockData.getCustomerOrders (App.CUSTOMERS a1)
                   (c_id (App.deref (App.CUSTOMERS a) (App.cl_currentUser cl)))
                 = App.newOrder_of env cl a
                   :: mockData.getCustomerOrders (App.CUSTOMERS a)
                        (c_id (App.deref (App.CUSTOMERS a) (App.cl_currentUser cl))))
      by (by apply (getCustomerOrders_after_checkout env cl a c)).
    assert (Hfound : is_Some
              (List.find
                 (λ x, bool_decide
                         (c_id x = c_id (App.deref (App.CUSTOMERS a) (App.cl_currentUser cl))))
                 (App.CUSTOMERS a1))).
    { unfold a1. rewrite customers_after_checkout.
      rewrite (find_after_prepend _ _ (App.CUSTOMERS a)) by done.
      destruct (find_member _ (App.CUSTOMERS a) c Hc Hid) as [x ->]. by eexists. }
    destruct Hfound as [x Hx]. apply find_some in Hx as [Hin Hidx].
    apply bool_decide_eq_true_1 in Hidx. apply list_elem_of_In in Hin.
    rewrite <- Hid1 in Hidx.
    pose proof (getCustomerOrders_after_checkout env cl a1 x Hin Hidx) as H2.
    rewrite Hid1 in H2. rewrite H2, H1. reflexivity.
Qed.

Lemma two_place_orders_in_a_batch_order_twice_witness :
  ∃ order1 order2 message1 message2 l2,
    LiveSupport.onmessage_toolCall Sample.env (InStore 1)
      [Sample.place_order; Sample.place_order] Sample.alice_live
    = (LiveSupport.Normal
         [LiveSupport.mkResponse "call-1" "place_order"
            (LiveSupport.OrderResult true (o_id order1) message1);
          LiveSupport.mkResponse "call-1" "place_order"
            (LiveSupport.OrderResult true (o_id order2) message2)],
       l2)
    ∧ o_items order1 = [mkOrderItem "P1000" 2; mkOrderItem "P1001" 1]
    ∧ o_items order2 = o_items order1
    ∧ o_total order1 = 90
    ∧ o_total order2 = 90
    ∧ mockData.getCustomerOrders (App.CUSTOMERS (LiveSupport.app l2)) "C1"
      = order2 :: order1 :: mockData.getCustomerOrders Sample.customers "C1".
Proof.
  destruct (two_place_orders_in_a_batch_order_twice Sample.env (InStore 1)
              Sample.place_order Sample.place_order Sample.alice_live
              (App.deref Sample.customers (InStore 1)))
    as (order1 & order2 & message1 & message2 & l2 & Hbatch & Hitems1 & Hitems2
        & Htotal1 & Htotal2 & Hstore).
  - reflexivity.
  - reflexivity.
  - vm_compute. discriminate.
  - apply list_elem_of_lookup. by exists 1%nat.
  - reflexivity.
  - exists order1, order2, message1, message2, l2. split_and!.
    + exact Hbatch.
    + rewrite Hitems1. vm_compute. reflexivity.
    + exact Hitems2.
    + rewrite Htotal1. vm_compute. reflexivity.
    + rewrite Htotal2, Htotal1. vm_compute. reflexivity.
    + exact Hstore.
Defined.

(** X11. [createEscalationTicket] returns "TKT-" followed by a number from
    10000 to 99999, and leaves customers, cart and active user alone. *)
Theorem ticket_number_has_five_digits (env : Env) (userId : string)
    (reason : option string) (s : App.State) :
  let r := Math_random env (App.random_calls s) in
  (0 <= r)%Q → (r < 1)%Q →
  let made := LiveSupport.createEscalationTicket env userId reason s in
  ∃ n, made.1 = "TKT-" +:+ JS.toString n ∧ 10000 ≤ n ≤ 99999
    ∧ App.CUSTOMERS made.2 = App.CUSTOMERS s
    ∧ App.cart made.2 = App.cart s
    ∧ App.currentUser made.2 = App.currentUser s.
Proof.
  intros r H0 H1 made.
  exists (JS.Math_floor (r * 90000) + 10000). split_and!; try reflexivity.
  - pose proof (floor_scaled_range r 90000 ltac:(lia) H0 H1) as H.
    change (inject_Z 90000) with 90000%Q in H. lia.
  - pose proof (floor_scaled_range r 90000 ltac:(lia) H0 H1) as H.
    change (inject_Z 90000) with 90000%Q in H. lia.
Qed.

Lemma ticket_number_has_five_digits_witness :
  ∃ n,
    (LiveSupport.createEscalationTicket Sample.env "C1" None Sample.alice_shopping).1
    = "TKT-" +:+ JS.toString n
    ∧ 10000 ≤ n ≤ 99999.
Proof.
  destruct (ticket_number_has_five_digits Sample.env "C1" None Sample.alice_shopping)
    as (n & Hid & Hn & _).
  - vm_compute. discriminate.
  - vm_compute. reflexivity.
  - exists n. split; [exact Hid|exact Hn].
Defined.

Section Generated.
Import mockData.

Lemma generated_ids draws :
  List.map p_id (generateProducts draws)
  = List.map (λ i, "P" +:+ JS.toString (1000 + Z.of_nat i)) (seq 0 100).
Proof. unfold generateProducts. rewrite List.map_map. reflexivity. Qed.

Lemma generated_member draws p :
  p ∈ generateProducts draws → ∃ i, (i < 100)%nat ∧ p = generateProduct draws i.
Proof.
  unfold generateProducts. intros Hp.
  apply list_elem_of_In, in_map_iff in Hp as (i & <- & Hi).
  apply in_seq in Hi. exists i. split; [lia|done].
Qed.

Lemma generated_category draws i :
  p_category (generateProduct draws i) ∈ CATEGORIES.
Proof.
  unfold generateProduct. cbn [p_category].
  pose proof (Nat.mod_upper_bound i (length CATEGORIES)) as Hlt.
  destruct (CATEGORIES !! (i mod length CATEGORIES)%nat) as [c|] eqn:Hc.
  - simpl. apply list_elem_of_lookup. eauto.
  - apply lookup_ge_None in Hc. simpl in *. lia.
Qed.

Lemma toFixed1_range (x : Q) : (3 <= x)%Q → (x < 5)%Q →
  (3 <= toFixed1 x)%Q ∧ (toFixed1 x <= 5)%Q.
Proof.
  intros H3 H5. unfold toFixed1.
  assert (Hlo : 30 ≤ Qfloor (x * 10 + (1 # 2))).
  { change 30 with (Qfloor (30 # 1)). apply Qfloor_resp_le.
    apply Qle_trans with (x * 10)%Q.
    - change (30 # 1)%Q with (3 * 10)%Q. apply Qmult_le_compat_r; [done|discriminate].
    - rewrite <- (Qplus_0_r (x * 10)) at 1. apply Qplus_le_r. discriminate. }
  assert (Hhi : Qfloor (x * 10 + (1 # 2)) ≤ 50).
  { change 50 with (Qfloor (50 + (1 # 2))). apply Qfloor_resp_le.
    apply Qplus_le_l. change 50%Q with (5 * 10)%Q.
    apply Qmult_le_compat_r; [by apply Qlt_le_weak|discriminate]. }
  split.
  - apply Qle_shift_div_l; [reflexivity|].
    change (3 * 10)%Q with (inject_Z 30). change (?z # 1) with (inject_Z z).
    by rewrite <- Zle_Qle.
  - apply Qle_shift_div_r; [reflexivity|].
    change (5 * 10)%Q with (inject_Z 50). change (?z # 1) with (inject_Z z).
    by rewrite <- Zle_Qle.
Qed.
End Generated.

(** X12. Whatever [Math.random()] gives, in [[0,1)], [generateProducts]
    builds 100 products with distinct ids; every price is from 20 to
    169, every review count from 10 to 509, every rating from 3 to 5 and
    every category one of [CATEGORIES]. *)
Theorem generateProducts_catalogue (draws : nat → mockData.ProductDraws) :
  (∀ i, draws_in_range (draws i)) →
  let products := mockData.generateProducts draws in
  length products = 100%nat
  ∧ NoDup (List.map p_id products)
  ∧ ∀ p, p ∈ products →
      20 ≤ p_price p ≤ 169
      ∧ 10 ≤ p_reviewCount p ≤ 509
      ∧ (3 <= p_rating p)%Q ∧ (p_rating p <= 5)%Q
      ∧ p_category p ∈ mockData.CATEGORIES.
Proof.
  intros Hdraws products. split; [|split].
  - reflexivity.
  - unfold products. rewrite generated_ids.
    apply (bool_decide_unpack _). vm_compute. reflexivity.
  - intros p Hp. apply generated_member in Hp as (i & _ & ->).
    destruct (Hdraws i) as (Hp0 & Hp1 & Hr0 & Hr1 & Hv0 & Hv1).
    pose proof (floor_scaled_range (mockData.d_price (draws i)) 150 ltac:(lia) Hp0 Hp1) as Hprice.
    pose proof (floor_scaled_range (mockData.d_reviews (draws i)) 500 ltac:(lia) Hv0 Hv1) as Hrev.
    change (inject_Z 150) with 150%Q in Hprice.
    change (inject_Z 500) with 500%Q in Hrev.
    assert (Hrating : (3 <= mockData.toFixed1 (3 + mockData.d_rating (draws i) * 2))%Q
                      ∧ (mockData.toFixed1 (3 + mockData.d_rating (draws i) * 2) <= 5)%Q).
    { apply toFixed1_range.
      - rewrite <- (Qplus_0_r 3) at 1. apply Qplus_le_r.
        apply Qmult_le_0_compat; [done|discriminate].
      - change 5%Q with (3 + 1 * 2)%Q. apply Qplus_lt_r.
        apply Qmult_lt_compat_r; [reflexivity|done]. }
    cbn [mockData.generateProduct p_price p_reviewCount p_rating].
    split_and!; try lia; try tauto.
    apply generated_category.
Qed.

Lemma generateProducts_catalogue_witness :
  length (mockData.generateProducts Sample.draws) = 100%nat
  ∧ NoDup (List.map p_id (mockData.generateProducts Sample.draws)).
Proof.
  destruct (generateProducts_catalogue Sample.draws) as (Hlen & Hids & _).
  - intros i. unfold draws_in_range, Sample.draws. cbn.
    assert (Hmod : (i mod 5 < 5)%nat) by (apply Nat.mod_upper_bound; lia).
    split_and!; try discriminate; try reflexivity.
    + unfold Qle. simpl. lia.
    + unfold Qlt. simpl. lia.
  - split; [exact Hlen|exact Hids].
Defined.

Section FirstMatch.
Import mockData.

Lemma find_first_of_seq {A} (f : A → bool) (g : nat → A) (n : nat) : ∀ a y,
  List.find f (List.map g (seq a n)) = Some y →
  ∃ i, (a ≤ i < a + n)%nat ∧ y = g i ∧ f (g i) = true
       ∧ ∀ j, (a ≤ j < i)%nat → f (g j) = false.
Proof.
  induction n as [|n IH]; intros a y Hfind; [done|].
  simpl in Hfind. destruct (f (g a)) eqn:Ha.
  - injection Hfind as <-. exists a. split_and!; [lia|lia|done|done|]. intros j Hj. lia.
  - apply IH in Hfind as (i & Hi & -> & Hfi & Hmin).
    exists i. split_and!; [lia|lia|done|done|]. intros j Hj.
    destruct (decide (j = a)) as [->|Hne]; [done|]. apply Hmin. lia.
Qed.

Lemma generated_name_period draws i :
  p_name (generateProduct draws i) = p_name (generateProduct draws (i mod 7)).
Proof.
  unfold generateProduct. cbn [p_name].
  change (length CATEGORIES) with 7%nat. change (length ADJECTIVES) with 7%nat.
  change (length COLORS) with 7%nat.
  by rewrite Nat.Div0.mod_mod.
Qed.
End FirstMatch.

(** X13. The names of the generated catalogue repeat with period 7, and
    [add_to_cart] takes the first product whose name matches: whatever
    the name asked for, the product found is one of the first seven,
    P1000 to P1006. *)
Theorem add_to_cart_finds_one_of_the_first_seven (draws : nat → mockData.ProductDraws)
    (productName : string) (foundProduct : Product) :
  LiveSupport.find_product (mockData.generateProducts draws) (Some productName)
  = LiveSupport.Normal (Some foundProduct) →
  ∃ i, (i < 7)%nat ∧ foundProduct = mockData.generateProduct draws i
       ∧ p_id foundProduct = "P" +:+ JS.toString (1000 + Z.of_nat i).
Proof.
  intros Hfind.
  assert (Hfirst : ∀ o : option Product,
            LiveSupport.Normal o = LiveSupport.Normal (Some foundProduct) →
            o = Some foundProduct) by (intros o [=]; done).
  apply Hfirst in Hfind. clear Hfirst.
  apply (find_first_of_seq _ (mockData.generateProduct draws) 100 0) in Hfind
    as (i & Hi & -> & Hmatch & Hmin).
  exists i. split_and!; [|done|done].
  destruct (decide (i < 7)%nat) as [Hlt|Hge]; [done|]. exfalso.
  assert (Hmod : (i mod 7 < 7)%nat) by (apply Nat.mod_upper_bound; lia).
  rewrite generated_name_period in Hmatch.
  rewrite (Hmin (i mod 7)%nat) in Hmatch; [discriminate|lia].
Qed.

Lemma add_to_cart_finds_one_of_the_first_seven_witness :
  ∃ i, (i < 7)%nat ∧ Sample.jeans = mockData.generateProduct Sample.draws i
       ∧ p_id Sample.jeans = "P" +:+ JS.toString (1000 + Z.of_nat i).
Proof.
  apply (add_to_cart_finds_one_of_the_first_seven Sample.draws "blue jeans" Sample.jeans).
  vm_compute. reflexivity.
Defined.

Section Totals.
Import mockData.

Lemma calcTotal_sum products items :
  calcTotal products items = Run.sum (List.map (line_total products) items).
Proof.
  unfold calcTotal. fold (line_total products).
  assert (H : ∀ acc, fold_left (λ acc item, acc + line_total products item) items acc
                     = acc + Run.sum (List.map (line_total products) items)).
  { induction items as [|item items IH]; intros acc; simpl; [lia|]. rewrite IH. lia. }
  apply H.
Qed.

Lemma line_total_unknown products item :
  unknown_to products item → line_total products item = 0.
Proof.
  intros Hitem. unfold line_total. destruct (List.find _ _) as [p|] eqn:Hfind; [|done].
  apply find_some in Hfind as [Hin Hid]. apply bool_decide_eq_true_1 in Hid.
  exfalso. apply Hitem. rewrite <- Hid. apply list_elem_of_fmap.
  exists p. split; [done|]. by apply list_elem_of_In.
Qed.
End Totals.

(** X14. [calcTotal] is additive and counts an item of a product that is
    not in the catalogue for nothing. *)
Theorem calcTotal_skips_unknown_products (products : list Product)
    (known unknown more : list OrderItem) :
  Forall (unknown_to products) unknown →
  mockData.calcTotal products (known ++ unknown ++ more)
  = mockData.calcTotal products known + mockData.calcTotal products more.
Proof.
  intros Hunknown. rewrite !calcTotal_sum, !List.map_app, !sum_app.
  assert (H0 : Run.sum (List.map (line_total products) unknown) = 0).
  { induction Hunknown as [|item items Hitem _ IH]; [done|].
    simpl. rewrite line_total_unknown by done. lia. }
  lia.
Qed.

Lemma calcTotal_skips_unknown_products_witness :
  mockData.calcTotal (PRODUCTS Sample.env)
    ([mkOrderItem "P1000" 2] ++ [mkOrderItem "P2000" 5; mkOrderItem "" 1]
     ++ [mkOrderItem "P1001" 1])
  = mockData.calcTotal (PRODUCTS Sample.env) [mkOrderItem "P1000" 2]
    + mockData.calcTotal (PRODUCTS Sample.env) [mkOrderItem "P1001" 1].
Proof.
  apply (calcTotal_skips_unknown_products (PRODUCTS Sample.env)).
  repeat constructor; apply (bool_decide_unpack _); vm_compute; reflexivity.
Defined.

Section Browser.
Import ProductBrowser.

Lemma includes_itself s : JS.includes s s = true.
Proof.
  apply includes_spec. exists "", "". rewrite append_empty.
  induction s as [|c s IH]; [done|]. rewrite append_String. by rewrite <- IH.
Qed.

Lemma filteredProducts_all products searchTerm :
  filteredProducts products searchTerm "All"
  = List.filter (SearchSpec.matches (Some searchTerm) None) products.
Proof.
  unfold filteredProducts. apply filter_extensional. intros p.
  unfold SearchSpec.matches. simpl. by rewrite andb_true_r.
Qed.

Lemma filter_implies_sublist {A} (f g : A → bool) (l : list A) :
  (∀ x, f x = true → g x = true) → List.filter f l `sublist_of` List.filter g l.
Proof.
  intros Hfg. induction l as [|x l IH]; simpl; [done|].
  destruct (f x) eqn:Hf.
  - rewrite (Hfg x Hf). by constructor.
  - destruct (g x); [by constructor|done].
Qed.
End Browser.

(** X15. The product browser and the search tool agree. The search for a
    term without category returns the first five products that the
    browser shows for that term under "All". Under a category, the
    browser shows only products that the search filter for that term and
    category accepts, and only products that it shows under "All". With
    an empty term under "All" it shows the whole catalogue. *)
Theorem browser_and_search_agree (products : list Product)
    (searchTerm selectedCategory : string) :
  selectedCategory ≠ "All" →
  mockData.searchProducts products (Some searchTerm) None
  = take 5 (ProductBrowser.filteredProducts products searchTerm "All")
  ∧ (ProductBrowser.filteredProducts products searchTerm selectedCategory
     `sublist_of`
     List.filter (SearchSpec.matches (Some searchTerm) (Some selectedCategory)) products)
  ∧ (ProductBrowser.filteredProducts products searchTerm selectedCategory
     `sublist_of` ProductBrowser.filteredProducts products searchTerm "All")
  ∧ ProductBrowser.filteredProducts products "" "All" = products.
Proof.
  intros Hcategory. split_and!.
  - rewrite searchProducts_refines, filteredProducts_all. reflexivity.
  - apply filter_implies_sublist. intros p Hp.
    apply andb_prop in Hp as [Hname Hcat]. unfold SearchSpec.matches.
    apply andb_true_intro. split; [|exact Hname].
    simpl. apply orb_prop in Hcat as [Hall|Hsame].
    + by apply bool_decide_eq_true_1 in Hall.
    + apply bool_decide_eq_true_1 in Hsame. rewrite Hsame.
      by rewrite includes_itself, orb_true_r.
  - apply filter_implies_sublist. intros p Hp.
    apply andb_prop in Hp as [Hname _]. by rewrite Hname.
  - unfold ProductBrowser.filteredProducts. apply filter_all. intros p.
    by rewrite includes_empty.
Qed.

Lemma browser_and_search_agree_witness :
  mockData.searchProducts (PRODUCTS Sample.env) (Some "blue") None
  = take 5 (ProductBrowser.filteredProducts (PRODUCTS Sample.env) "blue" "All")
  ∧ (ProductBrowser.filteredProducts (PRODUCTS Sample.env) "blue" "Jeans"
     `sublist_of`
     List.filter (SearchSpec.matches (Some "blue") (Some "Jeans")) (PRODUCTS Sample.env)).
Proof.
  destruct (browser_and_search_agree (PRODUCTS Sample.env) "blue" "Jeans")
    as (Hall & Hcategory & _).
  - discriminate.
  - split; [exact Hall|exact Hcategory].
Defined.

Section Drawer.
Import React CartDrawer.

Lemma total_is_cart_total c : total c = App.cart_total c.
Proof. reflexivity. Qed.
End Drawer.

(** X16. Buy Now in the cart drawer: after the render the drawer is at its
    success step and shows as order id the id of the order that is now
    at the front of the customer's history; the total of that order is
    the total that the review showed; the cart is empty and its total 0.
    Continue Shopping then leads back to the cart step and closes the
    drawer. *)
Theorem confirm_shows_the_order_just_made (env : Env) (d : CartDrawer.State) :
  let reviewed := React.current (App.cart (CartDrawer.app d)) in
  let done := CartDrawer.render (CartDrawer.handleConfirmOrder env d) in
  let closed := CartDrawer.render (CartDrawer.handleFinalize done) in
  ∃ newOrder,
    React.current (CartDrawer.checkoutStep done) = CartDrawer.StepSuccess
    ∧ React.current (CartDrawer.lastOrderId done) = o_id newOrder
    ∧ App.history (CartDrawer.app done) = newOrder :: App.history (CartDrawer.app d)
    ∧ o_total newOrder = CartDrawer.total reviewed
    ∧ React.current (App.cart (CartDrawer.app done)) = []
    ∧ CartDrawer.total (React.current (App.cart (CartDrawer.app done))) = 0
    ∧ React.current (CartDrawer.checkoutStep closed) = CartDrawer.StepCart
    ∧ React.current (App.isCartOpen (CartDrawer.app closed)) = false.
Proof.
  intros reviewed done closed.
  exists (App.newOrder_of env (App.closure_of (CartDrawer.app d)) (CartDrawer.app d)).
  assert (Hnext : ∀ A (v : A) (h : React.hook A),
            React.next (React.setValue v h) = v) by (intros; apply next_setValue).
  assert (Hcart : React.current (App.cart (CartDrawer.app done)) = [])
    by apply (cart_after_checkout env (CartDrawer.app d)).
  split_and!.
  - unfold done. cbn. apply Hnext.
  - unfold done. cbn. apply Hnext.
  - apply (history_after_checkout env (CartDrawer.app d)).
  - reflexivity.
  - exact Hcart.
  - by rewrite Hcart.
  - reflexivity.
  - unfold closed. cbn. first [reflexivity|apply Hnext].
Qed.

Section Stepper.
Import React CartDrawer.

Lemma current_cart_after_update productId q a :
  1 ≤ q → pending (App.cart a) = [] →
  current (App.cart (App.render (App.updateCartItemQuantity productId q a)))
  = App.updateCartItemQuantity_update productId q (current (App.cart a)).
Proof.
  intros Hq Hpending.
  change (current (App.cart (App.render (App.updateCartItemQuantity productId q a))))
    with (next (App.cart (App.updateCartItemQuantity productId q a))).
  rewrite next_cart_update by done. by rewrite next_settled.
Qed.

Lemma render_settles_cart a : pending (App.cart (App.render a)) = [].
Proof. reflexivity. Qed.
End Stepper.

(** X17. The quantity stepper of the drawer: in a cart with distinct
    product ids and nothing queued, plus and then minus on a line brings
    the cart back to what it was; minus on a line of quantity 1 does
    nothing. *)
Theorem stepper_plus_then_minus_restores_the_cart (d : CartDrawer.State) (item : CartItem) :
  React.pending (App.cart (CartDrawer.app d)) = [] →
  NoDup (Run.ids (React.current (App.cart (CartDrawer.app d)))) →
  item ∈ React.current (App.cart (CartDrawer.app d)) →
  1 ≤ quantity item →
  let more := CartDrawer.render (CartDrawer.increment item d) in
  let raised := with_quantity item (quantity item + 1) in
  let back := CartDrawer.render (CartDrawer.decrement raised more) in
  raised ∈ React.current (App.cart (CartDrawer.app more))
  ∧ React.current (App.cart (CartDrawer.app back))
    = React.current (App.cart (CartDrawer.app d))
  ∧ (quantity item = 1 → CartDrawer.decrement item d = d).
Proof.
  intros Hpending Hnd Hitem Hq more raised back.
  set (c := React.current (App.cart (CartDrawer.app d))) in *.
  assert (Hmore : React.current (App.cart (CartDrawer.app more))
                  = App.updateCartItemQuantity_update (p_id (product item))
                      (quantity item + 1) c).
  { unfold more. cbn [CartDrawer.render CartDrawer.increment CartDrawer.set_app CartDrawer.app].
    apply current_cart_after_update; [lia|done]. }
  assert (Hback : React.current (App.cart (CartDrawer.app back))
                  = App.updateCartItemQuantity_update (p_id (product item)) (quantity item)
                      (React.current (App.cart (CartDrawer.app more)))).
  { unfold back, CartDrawer.decrement. cbn [raised with_quantity quantity product].
    rewrite (proj2 (Z.leb_gt _ _)) by lia.
    cbn [CartDrawer.render CartDrawer.set_app CartDrawer.app].
    rewrite current_cart_after_update; [|lia|reflexivity].
    f_equal. lia. }
  split_and!.
  - rewrite Hmore. unfold App.updateCartItemQuantity_update.
    apply list_elem_of_In, in_map_iff. exists item. split; [|by apply list_elem_of_In].
    by rewrite bool_decide_eq_true_2.
  - rewrite Hback, Hmore, update_twice. by apply update_same_quantity.
  - intros H1. unfold CartDrawer.decrement. rewrite H1. reflexivity.
Qed.

Lemma stepper_plus_then_minus_restores_the_cart_witness :
  React.current
    (App.cart
       (CartDrawer.app
          (CartDrawer.render
             (CartDrawer.decrement (with_quantity (mkCartItem Sample.jeans 1) (1 + 1))
                (CartDrawer.render
                   (CartDrawer.increment (mkCartItem Sample.jeans 1)
                      (CartDrawer.mount Sample.alice_shopping)))))))
  = React.current (App.cart (CartDrawer.app (CartDrawer.mount Sample.alice_shopping))).
Proof.
  refine (proj1 (proj2 (stepper_plus_then_minus_restores_the_cart
                          (CartDrawer.mount Sample.alice_shopping)
                          (mkCartItem Sample.jeans 1) _ _ _ _))).
  - reflexivity.
  - apply (bool_decide_unpack _). vm_compute. reflexivity.
  - apply list_elem_of_lookup. by exists 1%nat.
  - simpl. lia.
Defined.

Section DrawerInvariant.
Import React CartDrawer.

Lemma prepend_keeps_orders_nonempty (newOrder : Order) (k : nat)
    (customers : list Customer) :
  o_items newOrder ≠ [] →
  Forall (λ c, Forall (λ o, o_items o ≠ []) (orders c)) customers →
  Forall (λ c, Forall (λ o, o_items o ≠ []) (orders c))
    (alter (λ c, with_orders c (newOrder :: orders c)) k customers).
Proof.
  intros Hnew Hall. revert k. induction Hall as [|c customers Hc Hall IH]; intros k.
  - constructor.
  - destruct k as [|k]; simpl; constructor; try done.
    + simpl. by constructor.
    + apply IH.
Qed.

Lemma deref_orders_nonempty (customers : list Customer) (r : UserRef) :
  Forall (λ c, Forall (λ o, o_items o ≠ []) (orders c)) customers →
  (∀ c, r = Detached c → Forall (λ o, o_items o ≠ []) (orders c)) →
  Forall (λ o, o_items o ≠ []) (orders (App.deref customers r)).
Proof.
  intros Hall Hdet. destruct r as [i|c]; [|by apply Hdet]. simpl.
  destruct (customers !! i) as [c|] eqn:Hc; simpl; [|constructor].
  rewrite Forall_forall in Hall. apply Hall. apply list_elem_of_lookup. eauto.
Qed.

Lemma confirm_keeps_orders_nonempty env a :
  current (App.cart a) ≠ [] →
  no_empty_order a →
  no_empty_order (App.render (App.handleCheckout env (App.closure_of a) a).2).
Proof.
  intros Hcart [Hall Hhist].
  set (newOrder := App.newOrder_of env (App.closure_of a) a).
  assert (Hnew : o_items newOrder ≠ []).
  { unfold newOrder. cbn. by destruct (current (App.cart a)). }
  split.
  - change (App.CUSTOMERS (App.render (App.handleCheckout env (App.closure_of a) a).2))
      with (App.CUSTOMERS (App.handleCheckout env (App.closure_of a) a).2).
    rewrite customers_after_checkout. fold newOrder.
    destruct (list_find _ _) as [[k c]|]; [|done].
    by apply prepend_keeps_orders_nonempty.
  - change (App.render (App.handleCheckout env (App.closure_of a) a).2)
      with (App.checkout env a).2.
    rewrite history_after_checkout. by constructor.
Qed.

Lemma render_settled_app a :
  pending (App.cart a) = [] → pending (App.currentUser a) = [] →
  App.CUSTOMERS (App.render a) = App.CUSTOMERS a
  ∧ current (App.cart (App.render a)) = current (App.cart a)
  ∧ current (App.currentUser (App.render a)) = current (App.currentUser a).
Proof. intros Hc Hu. cbn. unfold next. by rewrite Hc, Hu. Qed.

Lemma click_outcome env c d : outcome env d (click env c d).
Proof.
  unfold click. cbv zeta.
  destruct (current (App.isCartOpen (app d))); cbn [negb]; cbv iota.
  2: { apply Unchanged. }
  destruct c, (current (checkoutStep d)) eqn:Hstep; try apply Unchanged.
  all: try (apply (Moved env d StepCart (setValue false)); done).
  - destruct (current (App.cart (app d))); [apply Unchanged|].
    by apply (CartEdited env d (setValue [])).
  - destruct (_ !! i); [|apply Unchanged]. by apply CartEdited.
  - destruct (_ !! i) as [item|]; [|apply Unchanged]. unfold increment.
    unfold App.updateCartItemQuantity. destruct (_ <? 1).
    + destruct d. apply Unchanged.
    + by apply CartEdited.
  - destruct (_ !! i) as [item|]; [|apply Unchanged]. unfold decrement.
    destruct (_ <=? 1); [apply Unchanged|].
    unfold App.updateCartItemQuantity. destruct (_ <? 1).
    + destruct d. apply Unchanged.
    + by apply CartEdited.
  - destruct (current (App.cart (app d))) eqn:Hcart; [apply Unchanged|].
    unfold handleCheckoutClick.
    assert (H : setCheckoutStep StepReview d
                = set_app (App.set_isCartOpen (λ h, h)) (setCheckoutStep StepReview d)).
    { by destruct d as [[] ? ?]. }
    rewrite H. apply Moved. intros _. by rewrite Hcart.
  - assert (H : setCheckoutStep StepCart d
                = set_app (App.set_isCartOpen (λ h, h)) (setCheckoutStep StepCart d)).
    { by destruct d as [[] ? ?]. }
    rewrite H. by apply Moved.
  - by apply Confirmed.
Qed.

Lemma no_empty_order_same a a' :
  App.CUSTOMERS a' = App.CUSTOMERS a →
  current (App.currentUser a') = current (App.currentUser a) →
  no_empty_order a → no_empty_order a'.
Proof.
  intros Hcust Huser [Hall Hhist]. split; [by rewrite Hcust|].
  unfold App.history. by rewrite Hcust, Huser.
Qed.

Lemma outcome_sound env d d' : outcome env d d' → sound d → sound (render d').
Proof.
  intros Hout (Hset & Hrev & Hno). destruct Hset as (Hc & Hu & Hs).
  assert (Hstep0 : next (checkoutStep d) = current (checkoutStep d))
    by (by apply next_settled).
  assert (Hcart0 : next (App.cart (app d)) = current (App.cart (app d)))
    by (by apply next_settled).
  assert (Huser0 : next (App.currentUser (app d)) = current (App.currentUser (app d)))
    by (by apply next_settled).
  destruct Hout as [|f Hstep|step f Hstep|f|Hstep].
  - split; [done|]. split.
    + intros Hr. change (next (checkoutStep d) = StepReview) in Hr.
      change (next (App.cart (app d)) ≠ []). rewrite Hcart0. apply Hrev. congruence.
    + by apply (no_empty_order_same (app d)).
  - split; [done|]. split.
    + intros Hr. change (next (checkoutStep d) = StepReview) in Hr. congruence.
    + by apply (no_empty_order_same (app d)).
  - split; [done|]. split.
    + intros Hr. change (next (setValue step (checkoutStep d)) = StepReview) in Hr.
      rewrite next_setValue in Hr.
      change (next (App.cart (app d)) ≠ []). rewrite Hcart0. by apply Hstep.
    + by apply (no_empty_order_same (app d)).
  - split; [done|]. split.
    + intros Hr. change (next (checkoutStep d) = StepReview) in Hr.
      change (next (App.cart (app d)) ≠ []). rewrite Hcart0. apply Hrev. congruence.
    + by apply (no_empty_order_same (app d)).
  - split; [done|]. split.
    + intros Hr. change (next (setValue StepSuccess (checkoutStep d)) = StepReview) in Hr.
      rewrite next_setValue in Hr. discriminate Hr.
    + apply (confirm_keeps_orders_nonempty env (app d)); [by apply Hrev|done].
Qed.

Lemma act_sound env a d : sound d → sound (act env a d).
Proof.
  intros Hd. destruct a as [|c]; unfold act.
  - apply (outcome_sound env d); [|done]. apply Opened.
  - apply (outcome_sound env d); [|done]. apply click_outcome.
Qed.
End DrawerInvariant.

(** X18. Through the drawer alone no empty order is made. From a drawer
    that is sound (nothing queued, a review only of a cart that is not
    empty, no empty order on record), whatever buttons are clicked and
    however often the drawer is opened, the drawer is sound again: every
    order in [CUSTOMERS] and in the history of the active customer has
    at least one item. *)
Theorem drawer_never_orders_an_empty_cart (env : Env)
    (actions : list CartDrawer.Action) (d : CartDrawer.State) :
  sound d → sound (CartDrawer.session env actions d).
Proof.
  revert d. induction actions as [|a actions IH]; intros d Hd; [done|].
  simpl. apply IH. by apply act_sound.
Qed.

Lemma drawer_never_orders_an_empty_cart_witness :
  sound
    (CartDrawer.session Sample.env
       [CartDrawer.Open; CartDrawer.Press CartDrawer.ClickCheckout;
        CartDrawer.Press CartDrawer.ClickBuyNow; CartDrawer.Press CartDrawer.ClickBuyNow;
        CartDrawer.Press CartDrawer.ClickContinue; CartDrawer.Open;
        CartDrawer.Press CartDrawer.ClickCheckout]
       (CartDrawer.mount Sample.alice_shopping)).
Proof.
  apply (drawer_never_orders_an_empty_cart Sample.env).
  split; [by repeat split|]. split; [discriminate|].
  split; vm_compute; repeat constructor; discriminate.
Defined.

(** X19. [stopSession] releases everything, once. After it every
    reference is [null], the status to come is Disconnected and the
    volume 0; each context that is not closed is closed, each track
    stopped, each node disconnected and the session closed, in that
    order. A second call asks for nothing more and renders the same. *)
Theorem stopSession_releases_everything_once (s : Session.State) :
  let stopped := Session.stopSession s in
  Session.released stopped
  ∧ React.next (Session.status stopped) = Disconnected
  ∧ React.next (Session.volume stopped) = 0%Q
  ∧ Session.effects stopped
    = Session.effects s
      ++ Session.close_context (Session.inputContext s)
      ++ Session.close_context (Session.audioContext s)
      ++ Session.stop_tracks (Session.stream s)
      ++ Session.disconnect (Session.processor s)
      ++ Session.disconnect (Session.sourceNode s)
      ++ Session.close_session (Session.activeSessionPromise s)
  ∧ Session.effects (Session.stopSession stopped) = Session.effects stopped
  ∧ Session.released (Session.stopSession stopped)
  ∧ Session.render (Session.stopSession stopped) = Session.render stopped.
Proof.
  intros stopped. split_and!.
  - by repeat split.
  - apply next_setValue.
  - apply next_setValue.
  - reflexivity.
  - cbn. by rewrite !app_nil_r.
  - by repeat split.
  - unfold Session.render. cbn. rewrite !app_nil_r. f_equal.
    + unfold React.render. f_equal. unfold React.next. cbn.
      by rewrite ?fold_left_app.
    + unfold React.render. f_equal. unfold React.next. cbn.
      by rewrite ?fold_left_app.
Qed.

(** X20. A session error ends as Disconnected, not as Error: [onerror]
    asks for the status Error and then calls [stopSession], which asks
    for Disconnected; the render shows Disconnected with volume 0 and
    everything released. *)
Theorem session_error_ends_disconnected (s : Session.State) :
  let failed := Session.render (Session.onerror s) in
  React.current (Session.status failed) = Disconnected
  ∧ React.current (Session.volume failed) = 0%Q
  ∧ Session.released failed
  ∧ React.pending (Session.status (Session.onerror s))
    = React.pending (Session.status s) ++ [λ _, Error; λ _, Disconnected].
Proof.
  intros failed.
  assert (Hstatus : React.current (Session.status failed) = Disconnected).
  { unfold failed. cbn. unfold React.next. cbn. by rewrite ?fold_left_app. }
  split_and!.
  - exact Hstatus.
  - unfold failed. cbn. unfold React.next. cbn. by rewrite ?fold_left_app.
  - by repeat split.
  - cbn. by rewrite <- app_assoc.
Qed.

(** X21. After [onclose] the session cannot be started again until it is
    stopped: [onclose] shows Disconnected but keeps the microphone and
    the session reference, so that [startSession] returns at once; after
    [stopSession] it goes ahead. *)
Theorem closed_session_cannot_be_restarted (s : Session.State) (apiKey : string) :
  is_Some (Session.activeSessionPromise s) →
  JS.truthy_string apiKey = true →
  let closed := Session.render (Session.onclose s) in
  let stopped := Session.render (Session.stopSession closed) in
  React.current (Session.status closed) = Disconnected
  ∧ Session.stream closed = Session.stream s
  ∧ Session.effects closed = Session.effects s
  ∧ Session.startSession_entry apiKey closed = Session.Ignored
  ∧ Session.startSession_entry apiKey stopped = Session.Proceeds.
Proof.
  intros Hactive Hkey closed stopped.
  assert (Hclosed : React.current (Session.status closed) = Disconnected).
  { unfold closed. cbn. unfold React.next. cbn. by rewrite ?fold_left_app. }
  assert (Hstopped : React.current (Session.status stopped) = Disconnected).
  { unfold stopped. cbn. unfold React.next. cbn. by rewrite ?fold_left_app. }
  split_and!.
  - exact Hclosed.
  - reflexivity.
  - reflexivity.
  - unfold Session.startSession_entry.
    change (Session.activeSessionPromise closed) with (Session.activeSessionPromise s).
    by rewrite (bool_decide_eq_true_2 _ Hactive).
  - unfold Session.startSession_entry. rewrite Hstopped, Hkey. reflexivity.
Qed.

Lemma closed_session_cannot_be_restarted_witness :
  Session.startSession_entry "key"
    (Session.render (Session.onclose Session.connected_session))
  = Session.Ignored
  ∧ Session.startSession_entry "key"
      (Session.render
         (Session.stopSession
            (Session.render (Session.onclose Session.connected_session))))
    = Session.Proceeds.
Proof.
  destruct (closed_session_cannot_be_restarted Session.connected_session "key")
    as (_ & _ & _ & Hignored & Hproceeds).
  - by eexists.
  - reflexivity.
  - split; [exact Hignored|exact Hproceeds].
Defined.

Section Fragments.
Import LiveSupport Audio.

Lemma arrive_within a pb :
  nonnegative a → within_cursor pb → within_cursor (arrive pb a).
Proof.
  intros Ha Hpb. destruct a as [now [d|]]; unfold arrive, within_cursor in *; simpl in *.
  - apply Forall_app. split.
    + eapply Forall_impl; [exact Hpb|]. intros f Hf. simpl in Hf.
      apply Qle_trans with (nextStartTime pb); [done|].
      apply Qle_trans with (Qmax (nextStartTime pb) now); [apply Q.le_max_l|].
      rewrite <- (Qplus_0_r (Qmax (nextStartTime pb) now)) at 1.
      by apply Qplus_le_r.
    + repeat constructor. unfold fragment_end. simpl. apply Qle_refl.
  - eapply Forall_impl; [exact Hpb|]. intros f Hf. simpl in Hf.
    apply Qle_trans with (nextStartTime pb); [done|apply Q.le_max_l].
Qed.

Lemma arrive_sequential a pb :
  within_cursor pb → sequential (started pb) → sequential (started (arrive pb a)).
Proof.
  intros Hwithin Hseq. destruct a as [now [d|]]; unfold arrive; simpl; [|done].
  intros i j f g Hij Hf Hg.
  destruct (decide (j < length (started pb))%nat) as [Hj|Hj].
  - rewrite lookup_app_l in Hf by lia. rewrite lookup_app_l in Hg by lia.
    by apply (Hseq i j).
  - rewrite lookup_app_r in Hg by lia.
    destruct (j - length (started pb))%nat as [|k] eqn:Hk; [|done].
    injection Hg as <-. assert (Hi : (i < length (started pb))%nat) by lia.
    rewrite lookup_app_l in Hf by lia.
    unfold within_cursor in Hwithin. rewrite Forall_forall in Hwithin.
    apply Qle_trans with (nextStartTime pb).
    + apply Hwithin. apply list_elem_of_lookup. eauto.
    + unfold fragment_start. simpl. apply Q.le_max_l.
Qed.
End Fragments.

(** X22. Output fragments never overlap. For fragments of non-negative
    duration arriving one after the other, decoded or not, every
    fragment starts at or after the end of every fragment started before
    it, and all of them end by the cursor. *)
Theorem fragments_never_overlap (arrivals : list (Q * option Q))
    (pb : LiveSupport.Playback) :
  Forall Audio.nonnegative arrivals →
  Audio.within_cursor pb →
  Audio.sequential (LiveSupport.started pb) →
  Audio.sequential (LiveSupport.started (Audio.play arrivals pb))
  ∧ Audio.within_cursor (Audio.play arrivals pb).
Proof.
  revert pb. induction arrivals as [|a arrivals IH]; intros pb Harr Hwithin Hseq; [done|].
  apply Forall_cons in Harr as [Ha Harr]. simpl. apply IH; [done| |].
  - by apply arrive_within.
  - by apply arrive_sequential.
Qed.

Lemma fragments_never_overlap_witness :
  Audio.sequential
    (LiveSupport.started
       (Audio.play [(0 # 1, Some (1 # 2)); (1 # 4, Some (1 # 4)); (2 # 1, None);
                    (9 # 4, Some (1 # 1))]
          (LiveSupport.mkPlayback 0 [] 0 [] []))).
Proof.
  refine (proj1 (fragments_never_overlap
                   [(0 # 1, Some (1 # 2)); (1 # 4, Some (1 # 4)); (2 # 1, None);
                    (9 # 4, Some (1 # 1))]
                   (LiveSupport.mkPlayback 0 [] 0 [] []) _ _ _)).
  - repeat constructor; discriminate.
  - constructor.
  - intros i j f g _ Hf. discriminate Hf.
Defined.
